(** * TickTrader Web API client: request signing and URL building

    A shallow embedding of [src/ttwebclient.mjs] (the Node.js client built on
    axios and Node's [crypto]) and of the browser client of
    [src/unnamed/part_000] (built on jQuery and CryptoJS), together with the
    properties of the signing protocol and of the request dispatcher.

    Conventions of the embedding.
    - A JavaScript string is a [string]: a sequence of bytes, read as the
      UTF-8 encoding of the text.  Case conversion is the ASCII one.
    - A JavaScript value is a [value]; numbers are the integer-valued ones
      (a [Z]), which is what [Date.now()] returns and what the trading
      requests carry as identifiers and lot amounts.
    - An operation of the client is a computation in the monad [js]: it
      reads the clock, may throw, and hands requests to the transport, which
      records them on the wire. *)

From Stdlib Require Import ZArith Ascii String List Lia.
From Stdlib Require Import Numbers.DecimalString Numbers.DecimalZ.
From stdpp Require Import base option gmap strings list fin_maps.

(** ** The platform: SHA-256, HMAC and Base64

    [createHmac('sha256', k).update(m).digest('base64')] of Node's crypto
    module and [CryptoJS.enc.Base64.stringify(CryptoJS.HmacSHA256(m, k))]
    both compute the function [hmac_sha256_base64] below (FIPS 180-4,
    RFC 2104, RFC 4648 section 4). *)

Module Crypto.
Local Open Scope Z_scope.

Definition bytes_of_string (s : string) : list Z :=
  map (fun c => Z.of_N (N_of_ascii c)) (list_ascii_of_string s).

Definition word (x : Z) : Z := Z.land x 0xffffffff.
Definition add32 (x y : Z) : Z := word (x + y).
Definition rotr (n x : Z) : Z :=
  Z.lor (Z.shiftr x n) (word (Z.shiftl x (32 - n))).
Definition shr (n x : Z) : Z := Z.shiftr x n.
Definition compl (x : Z) : Z := Z.lxor x 0xffffffff.

Definition Ch (x y z : Z) : Z := Z.lxor (Z.land x y) (Z.land (compl x) z).
Definition Maj (x y z : Z) : Z :=
  Z.lxor (Z.lxor (Z.land x y) (Z.land x z)) (Z.land y z).
Definition Sigma0 (x : Z) : Z := Z.lxor (Z.lxor (rotr 2 x) (rotr 13 x)) (rotr 22 x).
Definition Sigma1 (x : Z) : Z := Z.lxor (Z.lxor (rotr 6 x) (rotr 11 x)) (rotr 25 x).
Definition sigma0 (x : Z) : Z := Z.lxor (Z.lxor (rotr 7 x) (rotr 18 x)) (shr 3 x).
Definition sigma1 (x : Z) : Z := Z.lxor (Z.lxor (rotr 17 x) (rotr 19 x)) (shr 10 x).

(** The round constants and the initial hash value are the first 32 bits of
    the fractional parts of the cube roots of the first 64 primes and of the
    square roots of the first 8 primes. *)
Definition is_prime (n : Z) : bool :=
  forallb (fun d => negb (n mod d =? 0))
    (map Z.of_nat (seq 2 (Z.to_nat (Z.sqrt n) - 1))).

Definition primes (count : nat) : list Z :=
  take count (filter is_prime (map Z.of_nat (seq 2 400))).

(** The integer cube root of [n], found bit by bit from [2^bits] down. *)
Fixpoint cube_root (bits : nat) (n r : Z) : Z :=
  match bits with
  | O => r
  | S bits' =>
      let r' := r + 2 ^ Z.of_nat bits' in
      cube_root bits' n (if r' * r' * r' <=? n then r' else r)
  end.

Definition K256 : list Z :=
  Eval vm_compute in
    map (fun p => word (cube_root 40 (p * 2 ^ 96) 0)) (primes 64).

Definition H256 : list Z :=
  Eval vm_compute in map (fun p => word (Z.sqrt (p * 2 ^ 64))) (primes 8).

(** Big-endian bytes of a number, [n] of them. *)
Fixpoint be_bytes (n : nat) (x : Z) : list Z :=
  match n with
  | O => []
  | S n' => Z.land (Z.shiftr x (8 * Z.of_nat n')) 0xff :: be_bytes n' x
  end.

Definition pad (msg : list Z) : list Z :=
  let len := Z.of_nat (length msg) in
  msg ++ [0x80] ++ repeat 0 (Z.to_nat ((55 - len) mod 64)) ++ be_bytes 8 (8 * len).

(** Big-endian 32-bit words of a byte sequence whose length is a multiple
    of four. *)
Fixpoint words_of (fuel : nat) (bs : list Z) : list Z :=
  match fuel, bs with
  | S fuel', b0 :: b1 :: b2 :: b3 :: rest =>
      (Z.shiftl b0 24 + Z.shiftl b1 16 + Z.shiftl b2 8 + b3) :: words_of fuel' rest
  | _, _ => []
  end.

(** The message schedule, most recent word first. *)
Fixpoint extend (n : nat) (ws : list Z) : list Z :=
  match n with
  | O => ws
  | S n' =>
      let w := add32 (add32 (sigma1 (nth 1 ws 0)) (nth 6 ws 0))
                     (add32 (sigma0 (nth 14 ws 0)) (nth 15 ws 0)) in
      extend n' (w :: ws)
  end.

Definition schedule (block : list Z) : list Z := rev (extend 48 (rev block)).

Record regs := Regs { ra : Z; rb : Z; rc : Z; rd : Z; re : Z; rf : Z; rg : Z; rh : Z }.

Definition round (s : regs) (kw : Z * Z) : regs :=
  let t1 := add32 (add32 (add32 (rh s) (Sigma1 (re s))) (Ch (re s) (rf s) (rg s)))
                  (add32 (fst kw) (snd kw)) in
  let t2 := add32 (Sigma0 (ra s)) (Maj (ra s) (rb s) (rc s)) in
  Regs (add32 t1 t2) (ra s) (rb s) (rc s) (add32 (rd s) t1) (re s) (rf s) (rg s).

Definition regs_of (h : list Z) : regs :=
  Regs (nth 0 h 0) (nth 1 h 0) (nth 2 h 0) (nth 3 h 0)
       (nth 4 h 0) (nth 5 h 0) (nth 6 h 0) (nth 7 h 0).

Definition list_of (s : regs) : list Z :=
  [ra s; rb s; rc s; rd s; re s; rf s; rg s; rh s].

Definition compress (h : list Z) (block : list Z) : list Z :=
  let s := fold_left round (combine K256 (schedule block)) (regs_of h) in
  zip_with add32 h (list_of s).

Fixpoint blocks (fuel : nat) (h : list Z) (ws : list Z) : list Z :=
  match fuel, ws with
  | S fuel', _ :: _ => blocks fuel' (compress h (take 16 ws)) (drop 16 ws)
  | _, _ => h
  end.

Definition sha256 (msg : list Z) : list Z :=
  let ws := let p := pad msg in words_of (length p) p in
  flat_map (be_bytes 4) (blocks (length ws) H256 ws).

Definition hmac_sha256 (key msg : list Z) : list Z :=
  let k := if (64 <? Z.of_nat (length key)) then sha256 key else key in
  let k := k ++ repeat 0 (64 - length k)%nat in
  sha256 (map (Z.lxor 0x5c) k ++ sha256 (map (Z.lxor 0x36) k ++ msg)).

Definition b64_alphabet : string :=
  "ABCDEFGHIJKLMNOPQRSTUVWXYZabcdefghijklmnopqrstuvwxyz0123456789+/".

Definition b64_char (i : Z) : ascii :=
  match String.get (Z.to_nat i) b64_alphabet with
  | Some c => c
  | None => "="%char
  end.

Fixpoint base64 (fuel : nat) (bs : list Z) : string :=
  match fuel, bs with
  | S fuel', b0 :: b1 :: b2 :: rest =>
      let n := Z.shiftl b0 16 + Z.shiftl b1 8 + b2 in
      String (b64_char (Z.shiftr n 18))
        (String (b64_char (Z.land (Z.shiftr n 12) 63))
           (String (b64_char (Z.land (Z.shiftr n 6) 63))
              (String (b64_char (Z.land n 63)) (base64 fuel' rest))))
  | S _, [b0; b1] =>
      let n := Z.shiftl b0 16 + Z.shiftl b1 8 in
      String (b64_char (Z.shiftr n 18))
        (String (b64_char (Z.land (Z.shiftr n 12) 63))
           (String (b64_char (Z.land (Z.shiftr n 6) 63)) "="))
  | S _, [b0] =>
      let n := Z.shiftl b0 16 in
      String (b64_char (Z.shiftr n 18))
        (String (b64_char (Z.land (Z.shiftr n 12) 63)) "==")
  | _, _ => EmptyString
  end.

Definition hmac_sha256_base64 (key msg : string) : string :=
  let d := hmac_sha256 (bytes_of_string key) (bytes_of_string msg) in
  base64 (length d) d.

Definition hex_digit (i : Z) : ascii :=
  match String.get (Z.to_nat i) "0123456789abcdef" with
  | Some c => c
  | None => "?"%char
  end.

Definition hex (bs : list Z) : string :=
  string_of_list_ascii
    (flat_map (fun b => [hex_digit (Z.shiftr b 4); hex_digit (Z.land b 15)]) bs).

End Crypto.

(** ** JavaScript values and coercions *)

Module JS.

(** The values a caller can pass where the type declarations say [any] or
    [number]: JSON-like data.  [JObj] lists the own enumerable properties in
    enumeration order. *)
#[local] Set Warnings "-register-all".
Inductive value : Type :=
  | JUndefined
  | JNull
  | JBool (b : bool)
  | JNum (n : Z)
  | JStr (s : string)
  | JArr (elements : list value)
  | JObj (properties : list (string * value)).

(** An argument declared [string]; [None] is an argument the caller left
    out ([undefined]). *)
Abbreviation arg := (option string) (only parsing).

(** [ToBoolean]: what [if (x)], [!x], [x ? a : b] and [x || y] test. *)
Class Truthy (A : Type) := truthy : A -> bool.

#[export] Instance truthy_string : Truthy string :=
  fun s => match s with EmptyString => false | String _ _ => true end.

#[export] Instance truthy_arg : Truthy arg :=
  fun a => match a with None => false | Some s => truthy s end.

#[export] Instance truthy_value : Truthy value :=
  fun v =>
    match v with
    | JUndefined | JNull => false
    | JBool b => b
    | JNum n => negb (n =? 0)%Z
    | JStr s => truthy s
    | JArr _ | JObj _ => true
    end.

(** Number::toString for an integer-valued number (below 10^21 in
    magnitude, where JavaScript switches to exponent notation). *)
Definition decimal (n : Z) : string := NilEmpty.string_of_int (Z.to_int n).

Fixpoint join (sep : string) (parts : list string) : string :=
  match parts with
  | [] => EmptyString
  | [p] => p
  | p :: rest => p +:+ sep +:+ join sep rest
  end.

(** [ToString]: what string concatenation with [+] and template literals
    apply to an operand.  An object converts through the inherited
    [Object.prototype.toString]; one that shadows it with an own [toString]
    property, which is not a function in a value of this type, makes the
    conversion throw a TypeError instead: the properties about objects
    below are stated for values that convert ([converts]). *)
Class ToString (A : Type) := to_string : A -> string.

#[export] Instance to_string_string : ToString string := fun s => s.
#[export] Instance to_string_Z : ToString Z := decimal.
#[export] Instance to_string_arg : ToString arg :=
  fun a => match a with None => "undefined" | Some s => s end.

Fixpoint value_to_string (v : value) : string :=
  match v with
  | JUndefined => "undefined"
  | JNull => "null"
  | JBool true => "true"
  | JBool false => "false"
  | JNum n => decimal n
  | JStr s => s
  | JArr elements =>
      join ","
        ((fix each (l : list value) : list string :=
            match l with
            | [] => []
            | (JUndefined | JNull) :: l' => EmptyString :: each l'
            | x :: l' => value_to_string x :: each l'
            end) elements)
  | JObj _ => "[object Object]"
  end.

#[export] Instance to_string_value : ToString value := value_to_string.

(** [String.prototype.toUpperCase] on ASCII text. *)
Definition upper_char (c : ascii) : ascii :=
  let n := nat_of_ascii c in
  if (97 <=? n)%nat && (n <=? 122)%nat then ascii_of_nat (n - 32) else c.

Fixpoint toUpperCase (s : string) : string :=
  match s with
  | EmptyString => EmptyString
  | String c s' => String (upper_char c) (toUpperCase s')
  end.

Definition hex_upper (i : nat) : ascii :=
  match String.get i "0123456789ABCDEF" with
  | Some c => c
  | None => "?"%char
  end.

Definition hex_lower (i : nat) : ascii :=
  match String.get i "0123456789abcdef" with
  | Some c => c
  | None => "?"%char
  end.

(** [encodeURIComponent]: every byte of the UTF-8 text is escaped as
    [%XX] except the letters, the digits and [- _ . ! ~ * ' ( )].  A
    string is held as its UTF-8 bytes; a JavaScript string with a lone
    surrogate has no UTF-8 text and makes the function throw a URIError:
    the properties below are stated for well-formed texts
    ([well_formed]). *)
Definition uri_unreserved (c : ascii) : bool :=
  let n := nat_of_ascii c in
  ((65 <=? n)%nat && (n <=? 90)%nat) || ((97 <=? n)%nat && (n <=? 122)%nat)
  || ((48 <=? n)%nat && (n <=? 57)%nat)
  || existsb (Nat.eqb n) [45; 95; 46; 33; 126; 42; 39; 40; 41]%nat.

Fixpoint encodeURIComponent (s : string) : string :=
  match s with
  | EmptyString => EmptyString
  | String c s' =>
      if uri_unreserved c then String c (encodeURIComponent s')
      else
        let n := nat_of_ascii c in
        String "%" (String (hex_upper (n / 16)) (String (hex_upper (n mod 16))
          (encodeURIComponent s')))
  end.

(** [QuoteJSONString] *)
Definition dquote : ascii := "034"%char.
Definition backslash : ascii := "092"%char.

Definition json_escape (c : ascii) : string :=
  let n := nat_of_ascii c in
  if (n =? 8)%nat then String backslash "b"
  else if (n =? 9)%nat then String backslash "t"
  else if (n =? 10)%nat then String backslash "n"
  else if (n =? 12)%nat then String backslash "f"
  else if (n =? 13)%nat then String backslash "r"
  else if (n =? 34)%nat then String backslash (String dquote EmptyString)
  else if (n =? 92)%nat then String backslash (String backslash EmptyString)
  else if (n <? 32)%nat then
    String backslash
      (String "u" (String "0" (String "0"
         (String (hex_lower (n / 16)) (String (hex_lower (n mod 16)) EmptyString)))))
  else String c EmptyString.

Fixpoint json_escape_all (s : string) : string :=
  match s with
  | EmptyString => EmptyString
  | String c s' => json_escape c +:+ json_escape_all s'
  end.

Definition json_quote (s : string) : string :=
  String dquote (json_escape_all s +:+ String dquote EmptyString).

(** [JSON.stringify(v)]; [None] is the result [undefined]. *)
Fixpoint JSON_stringify (v : value) : option string :=
  match v with
  | JUndefined => None
  | JNull => Some "null"
  | JBool true => Some "true"
  | JBool false => Some "false"
  | JNum n => Some (decimal n)
  | JStr s => Some (json_quote s)
  | JArr elements =>
      Some ("[" +:+ join ","
        ((fix each (l : list value) : list string :=
            match l with
            | [] => []
            | x :: l' => default "null" (JSON_stringify x) :: each l'
            end) elements) +:+ "]")
  | JObj properties =>
      Some ("{" +:+ join ","
        ((fix each (l : list (string * value)) : list string :=
            match l with
            | [] => []
            | (k, x) :: l' =>
                match JSON_stringify x with
                | Some text => (json_quote k +:+ ":" +:+ text) :: each l'
                | None => each l'
                end
            end) properties) +:+ "}")
  end.

End JS.

(** ** Computations: clock, exceptions and the transport *)

Module Eff.

(** The world an operation runs in: the reading of the wall clock, and the
    requests handed to the transport so far, oldest first. *)
Record world (R : Type) := World { clock : Z; wire : list R }.
Arguments World {R} _ _.
Arguments clock {R} _.
Arguments wire {R} _.

Inductive outcome (A : Type) : Type :=
  | Returned (a : A)
  | Thrown (message : string).
Arguments Returned {A} _.
Arguments Thrown {A} _.

Definition js (R A : Type) : Type := world R -> outcome A * world R.

Definition ret {R A} (a : A) : js R A := fun w => (Returned a, w).

Definition bind {R A B} (m : js R A) (k : A -> js R B) : js R B :=
  fun w =>
    match m w with
    | (Returned a, w') => k a w'
    | (Thrown message, w') => (Thrown message, w')
    end.

(** [throw new Error(message)] *)
Definition throw {R A} (message : string) : js R A := fun w => (Thrown message, w).

(** [Date.now()] *)
Definition Date_now {R} : js R Z := fun w => (Returned (clock w), w).

(** The transport receives a request. *)
Definition transmit {R} (r : R) : js R unit :=
  fun w => (Returned tt, World (clock w) (wire w ++ [r])).

(** Running [m] in the world [w] returns normally after handing the
    transport exactly the request [r]. *)
Definition sends {R} (m : js R unit) (w : world R) (r : R) : Prop :=
  m w = (Returned tt, World (clock w) (wire w ++ [r])).

(** Running [m] in the world [w] throws, and the transport has received
    nothing. *)
Definition throws_unsent {R A} (m : js R A) (w : world R) : Prop :=
  exists message, m w = (Thrown message, w).

Declare Scope js_scope.
Delimit Scope js_scope with js.
Notation "'let!' x := m 'in' k" := (bind m (fun x => k))
  (at level 10, x name, m at level 100, k at level 200) : js_scope.

End Eff.

Import JS Eff.
Local Open Scope js_scope.

(** ** The Node.js client, [src/ttwebclient.mjs] *)

Module Node.

(** The axios request config; [data] is [JUndefined] and [headers] is
    [None] where the object literal has no such property. *)
Record config := Config {
  method : string;
  url : string;
  data : value;
  headers : option (gmap string string)
}.

(** [axios(config)] hands the config to the transport; [axios.get(url)] is
    the request [{method: 'get', url}]. *)
Definition axios (c : config) : js config unit := transmit c.
Definition axios_get (u : string) : js config unit :=
  transmit (Config "get" u JUndefined None).

(** The local [signature] of [_signRequest]: the string that is signed. *)
Definition signature (timestamp : Z) (web_api_id web_api_key : arg)
    (config : config) : string :=
  to_string timestamp +:+ to_string web_api_id +:+ to_string web_api_key
  +:+ toUpperCase (method config) +:+ url config
  +:+ (if truthy (data config) then to_string (JSON_stringify (data config))
       else EmptyString).

Definition _signRequest (config : config) (web_api_id web_api_key web_api_secret : arg)
    : js Node.config Node.config :=
  if negb (truthy web_api_id) then
    throw "TickTrader Web API Id should be valid!"
  else if negb (truthy web_api_key) then
    throw "TickTrader Web API Key should be valid!"
  else if negb (truthy web_api_secret) then
    throw "TickTrader Web API Secret should be valid!"
  else
    let! timestamp := Date_now in
    let signature := signature timestamp web_api_id web_api_key config in
    let hash := Crypto.hmac_sha256_base64 (to_string web_api_secret) signature in
    ret {| method := method config;
           url := url config;
           data := data config;
           headers := Some (<[ "Authorization" :=
                                 "HMAC " +:+ to_string web_api_id +:+ ":"
                                 +:+ to_string web_api_key +:+ ":"
                                 +:+ to_string timestamp +:+ ":" +:+ hash ]>
                              (default ∅ (headers config))) |}.

Record client := Client {
  web_api_address : string;
  web_api_id : arg;
  web_api_key : arg;
  web_api_secret : arg
}.

Definition TickTraderWebClient (web_api_address : string)
    (web_api_id web_api_key web_api_secret : arg) : outcome client :=
  if negb (truthy web_api_address) then
    Thrown "TickTrader Web API address should be valid!"
  else Returned (Client web_api_address web_api_id web_api_key web_api_secret).

(** The shape shared by the private operations:
    [axios(_signRequest(config, this.web_api_id, this.web_api_key, this.web_api_secret))] *)
Definition signed (this : client) (config : config) : js Node.config unit :=
  let! c := _signRequest config (web_api_id this) (web_api_key this) (web_api_secret this) in
  axios c.

Definition json_headers : option (gmap string string) :=
  Some {[ "Content-Type" := "application/json" ]}.

Section Operations.
Variable this : client.

Definition getPublicTradeSession : js config unit :=
  axios_get (web_api_address this +:+ "/api/v2/public/tradesession").
Definition getPublicAllCurrencies : js config unit :=
  axios_get (web_api_address this +:+ "/api/v2/public/currency").
Definition getPublicCurrency (currency : string) : js config unit :=
  axios_get (web_api_address this +:+ "/api/v2/public/currency/" +:+ encodeURIComponent currency).
Definition getPublicAllSymbols : js config unit :=
  axios_get (web_api_address this +:+ "/api/v2/public/symbol").
Definition getPublicSymbol (symbol : string) : js config unit :=
  axios_get (web_api_address this +:+ "/api/v2/public/symbol/" +:+ encodeURIComponent symbol).
Definition getPublicAllTicks : js config unit :=
  axios_get (web_api_address this +:+ "/api/v2/public/tick").
Definition getPublicTick (symbol : string) : js config unit :=
  axios_get (web_api_address this +:+ "/api/v2/public/tick/" +:+ encodeURIComponent symbol).
Definition getPublicAllTicksLevel2 : js config unit :=
  axios_get (web_api_address this +:+ "/api/v2/public/level2").
Definition getPublicTickLevel2 (symbol : string) : js config unit :=
  axios_get (web_api_address this +:+ "/api/v2/public/level2/" +:+ encodeURIComponent symbol).

Definition getAccount : js config unit :=
  signed this (Config "GET" (web_api_address this +:+ "/api/v2/account") JUndefined None).
Definition getTradeSession : js config unit :=
  signed this (Config "GET" (web_api_address this +:+ "/api/v2/tradesession") JUndefined None).
Definition getAllCurrencies : js config unit :=
  signed this (Config "GET" (web_api_address this +:+ "/api/v2/currency") JUndefined None).
Definition getCurrency (currency : string) : js config unit :=
  signed this (Config "GET"
    (web_api_address this +:+ "/api/v2/currency/" +:+ encodeURIComponent currency)
    JUndefined None).
Definition getAllSymbols : js config unit :=
  signed this (Config "GET" (web_api_address this +:+ "/api/v2/symbol") JUndefined None).
Definition getSymbol (symbol : string) : js config unit :=
  signed this (Config "GET"
    (web_api_address this +:+ "/api/v2/symbol/" +:+ encodeURIComponent symbol)
    JUndefined None).
Definition getAllTicks : js config unit :=
  signed this (Config "GET" (web_api_address this +:+ "/api/v2/tick") JUndefined None).
Definition getTick (symbol : string) : js config unit :=
  signed this (Config "GET"
    (web_api_address this +:+ "/api/v2/tick/" +:+ encodeURIComponent symbol)
    JUndefined None).
Definition getAllTicksLevel2 : js config unit :=
  signed this (Config "GET" (web_api_address this +:+ "/api/v2/level2") JUndefined None).
Definition getTickLevel2 (symbol : string) : js config unit :=
  signed this (Config "GET"
    (web_api_address this +:+ "/api/v2/level2/" +:+ encodeURIComponent symbol)
    JUndefined None).
Definition getAllAssets : js config unit :=
  signed this (Config "GET" (web_api_address this +:+ "/api/v2/asset") JUndefined None).
Definition getAsset (currency : string) : js config unit :=
  signed this (Config "GET"
    (web_api_address this +:+ "/api/v2/asset/" +:+ encodeURIComponent currency)
    JUndefined None).
Definition getAllPositions : js config unit :=
  signed this (Config "GET" (web_api_address this +:+ "/api/v2/position") JUndefined None).
Definition getPosition (symbol : string) : js config unit :=
  signed this (Config "GET"
    (web_api_address this +:+ "/api/v2/position/" +:+ encodeURIComponent symbol)
    JUndefined None).
Definition getAllTrades : js config unit :=
  signed this (Config "GET" (web_api_address this +:+ "/api/v2/trade") JUndefined None).
Definition getTrade (tradeId : string) : js config unit :=
  signed this (Config "GET" (web_api_address this +:+ "/api/v2/trade/" +:+ tradeId)
    JUndefined None).

Definition createTrade (request : value) : js config unit :=
  signed this (Config "POST" (web_api_address this +:+ "/api/v2/trade") request json_headers).
Definition modifyTrade (request : value) : js config unit :=
  signed this (Config "PUT" (web_api_address this +:+ "/api/v2/trade") request json_headers).
Definition cancelTrade (tradeId : string) : js config unit :=
  signed this (Config "DELETE"
    (web_api_address this +:+ "/api/v2/trade?type=Cancel&id=" +:+ tradeId)
    JUndefined None).
Definition closeTrade (tradeId : string) (amount : value) : js config unit :=
  let url :=
    if truthy amount then
      web_api_address this +:+ "/api/v2/trade?type=Close&id=" +:+ to_string tradeId
      +:+ "&amount=" +:+ to_string amount
    else
      web_api_address this +:+ "/api/v2/trade?type=Close&id=" +:+ to_string tradeId in
  signed this (Config "DELETE" url JUndefined None).
Definition closeByTrade (tradeId byTradeId : string) : js config unit :=
  signed this (Config "DELETE"
    (web_api_address this +:+ "/api/v2/trade?type=CloseBy&id=" +:+ tradeId
     +:+ "&byid=" +:+ byTradeId)
    JUndefined None).
Definition getTradeHistory (request : value) : js config unit :=
  signed this (Config "POST" (web_api_address this +:+ "/api/v2/tradehistory")
    request json_headers).
Definition getTradeHistoryByTradeId (tradeId : string) (request : value) : js config unit :=
  signed this (Config "POST" (web_api_address this +:+ "/api/v2/tradehistory/" +:+ tradeId)
    request json_headers).

End Operations.

(** The private operations by name, with their arguments: what a caller
    can ask a client to do under its credentials. *)
Inductive operation : Type :=
  | GetAccount
  | GetTradeSession
  | GetAllCurrencies
  | GetCurrency (currency : string)
  | GetAllSymbols
  | GetSymbol (symbol : string)
  | GetAllTicks
  | GetTick (symbol : string)
  | GetAllTicksLevel2
  | GetTickLevel2 (symbol : string)
  | GetAllAssets
  | GetAsset (currency : string)
  | GetAllPositions
  | GetPosition (symbol : string)
  | GetAllTrades
  | GetTrade (tradeId : string)
  | CreateTrade (request : value)
  | ModifyTrade (request : value)
  | CancelTrade (tradeId : string)
  | CloseTrade (tradeId : string) (amount : value)
  | CloseByTrade (tradeId byTradeId : string)
  | GetTradeHistory (request : value)
  | GetTradeHistoryByTradeId (tradeId : string) (request : value).

Definition invoke (this : client) (op : operation) : js config unit :=
  match op with
  | GetAccount => getAccount this
  | GetTradeSession => getTradeSession this
  | GetAllCurrencies => getAllCurrencies this
  | GetCurrency currency => getCurrency this currency
  | GetAllSymbols => getAllSymbols this
  | GetSymbol symbol => getSymbol this symbol
  | GetAllTicks => getAllTicks this
  | GetTick symbol => getTick this symbol
  | GetAllTicksLevel2 => getAllTicksLevel2 this
  | GetTickLevel2 symbol => getTickLevel2 this symbol
  | GetAllAssets => getAllAssets this
  | GetAsset currency => getAsset this currency
  | GetAllPositions => getAllPositions this
  | GetPosition symbol => getPosition this symbol
  | GetAllTrades => getAllTrades this
  | GetTrade tradeId => getTrade this tradeId
  | CreateTrade request => createTrade this request
  | ModifyTrade request => modifyTrade this request
  | CancelTrade tradeId => cancelTrade this tradeId
  | CloseTrade tradeId amount => closeTrade this tradeId amount
  | CloseByTrade tradeId byTradeId => closeByTrade this tradeId byTradeId
  | GetTradeHistory request => getTradeHistory this request
  | GetTradeHistoryByTradeId tradeId request =>
      getTradeHistoryByTradeId this tradeId request
  end.

(** The value of a header of a config; a config without [headers] has
    none. *)
Definition header (name : string) (c : config) : option string :=
  default ∅ (headers c) !! name.

(** The public operations by name, with their arguments. *)
Inductive public_operation : Type :=
  | GetPublicTradeSession
  | GetPublicAllCurrencies
  | GetPublicCurrency (currency : string)
  | GetPublicAllSymbols
  | GetPublicSymbol (symbol : string)
  | GetPublicAllTicks
  | GetPublicTick (symbol : string)
  | GetPublicAllTicksLevel2
  | GetPublicTickLevel2 (symbol : string).

Definition invoke_public (this : client) (op : public_operation) : js config unit :=
  match op with
  | GetPublicTradeSession => getPublicTradeSession this
  | GetPublicAllCurrencies => getPublicAllCurrencies this
  | GetPublicCurrency currency => getPublicCurrency this currency
  | GetPublicAllSymbols => getPublicAllSymbols this
  | GetPublicSymbol symbol => getPublicSymbol this symbol
  | GetPublicAllTicks => getPublicAllTicks this
  | GetPublicTick symbol => getPublicTick this symbol
  | GetPublicAllTicksLevel2 => getPublicAllTicksLevel2 this
  | GetPublicTickLevel2 symbol => getPublicTickLevel2 this symbol
  end.

(** The request object a private operation was given, for the four
    operations that take one. *)
Definition body_of (op : operation) : value :=
  match op with
  | CreateTrade request | ModifyTrade request | GetTradeHistory request
  | GetTradeHistoryByTradeId _ request => request
  | _ => JUndefined
  end.

Definition carries_body (op : operation) : bool :=
  match op with
  | CreateTrade _ | ModifyTrade _ | GetTradeHistory _
  | GetTradeHistoryByTradeId _ _ => true
  | _ => false
  end.

End Node.

(** ** The browser client, [src/unnamed/part_000] *)

Module Browser.

(** The signing context [{ type, url, data }] that [_authAjax] builds. *)
Record context := Ctx {
  type : string;
  url : string;
  data : value
}.

(** What the transport sends for a [$.ajax] call: the settings, and the
    headers the client writes on the request object in [beforeSend].  The
    headers jQuery adds of its own (such as [Accept]) are not the client's
    and are not recorded; the operations of the client ask for a GET only
    without data. *)
Record sent := Sent {
  sent_url : string;
  sent_type : string;
  sent_data : arg;
  sent_contentType : arg;
  sent_headers : gmap string string
}.

(** The settings object of a [$.ajax] call. *)
Record settings := Settings {
  s_url : string;
  s_type : string;
  s_data : arg;
  s_contentType : arg;
  s_beforeSend : option (gmap string string -> js sent (gmap string string))
}.

(** [request.setRequestHeader(name, value)] on the request object, which is
    its table of headers. *)
Definition setRequestHeader (name value : string) (request : gmap string string)
    : gmap string string :=
  <[ name := value ]> request.

(** jQuery's [$.ajax], as far as the client relies on it: [beforeSend] runs
    on the fresh request object, then the request is sent; an exception
    thrown by [beforeSend] leaves [$.ajax] before anything is sent. *)
Definition ajax (s : settings) : js sent unit :=
  let! request :=
    match s_beforeSend s with
    | Some beforeSend => beforeSend ∅
    | None => ret ∅
    end in
  transmit (Sent (s_url s) (s_type s) (s_data s) (s_contentType s) request).

(** The local [signature] of [signRequest]: the string that is signed. *)
Definition signature (timestamp : Z) (web_api_id web_api_key : arg)
    (context : context) : string :=
  to_string timestamp +:+ to_string web_api_id +:+ to_string web_api_key
  +:+ type context +:+ url context
  +:+ (if truthy (data context) then to_string (data context) else EmptyString).

Definition signRequest (context : context) (request : gmap string string)
    (web_api_id web_api_key web_api_secret : arg)
    : js sent (gmap string string) :=
  if negb (truthy web_api_id) || negb (truthy web_api_key)
     || negb (truthy web_api_secret) then
    throw "Missing TickTrader Web API credentials."
  else
    let! timestamp := Date_now in
    let signature := signature timestamp web_api_id web_api_key context in
    let hash := Crypto.hmac_sha256_base64 (to_string web_api_secret) signature in
    let authHeader :=
      "HMAC " +:+ to_string web_api_id +:+ ":" +:+ to_string web_api_key +:+ ":"
      +:+ to_string timestamp +:+ ":" +:+ hash in
    ret (setRequestHeader "Authorization" authHeader request).

Record client := Client {
  web_api_address : string;
  web_api_id : arg;
  web_api_key : arg;
  web_api_secret : arg
}.

Definition constructor (web_api_address : string)
    (web_api_id web_api_key web_api_secret : arg) : outcome client :=
  if negb (truthy web_api_address) then Thrown "Web API address required"
  else Returned (Client web_api_address web_api_id web_api_key web_api_secret).

Section Operations.
Variable this : client.

(** [_authAjax(url, type = 'GET', data = null)]: an argument left out or
    [undefined] takes its default. *)
Definition _authAjax (url : string) (type : arg) (data : value) : js sent unit :=
  let type := default "GET" type in
  let data := match data with JUndefined => JNull | _ => data end in
  ajax {| s_url := url;
          s_type := type;
          s_data := if truthy data then JSON_stringify data else None;
          s_contentType :=
            if truthy data then Some "application/json; charset=UTF-8" else None;
          s_beforeSend := Some (fun request =>
            signRequest (Ctx type url data) request
              (web_api_id this) (web_api_key this) (web_api_secret this)) |}.

Definition _publicAjax (path : string) : js sent unit :=
  ajax {| s_url := web_api_address this +:+ path;
          s_type := "GET";
          s_data := None;
          s_contentType := None;
          s_beforeSend := None |}.

Definition getPublicTradeSession := _publicAjax "/api/v2/public/tradesession".
Definition getPublicAllCurrencies := _publicAjax "/api/v2/public/currency".
Definition getPublicCurrency (currency : string) :=
  _publicAjax ("/api/v2/public/currency/" +:+ encodeURIComponent currency).
Definition getPublicAllSymbols := _publicAjax "/api/v2/public/symbol".
Definition getPublicSymbol (symbol : string) :=
  _publicAjax ("/api/v2/public/symbol/" +:+ encodeURIComponent symbol).
Definition getPublicAllTicks := _publicAjax "/api/v2/public/tick".
Definition getPublicTick (symbol : string) :=
  _publicAjax ("/api/v2/public/tick/" +:+ encodeURIComponent symbol).
Definition getPublicAllTicksLevel2 := _publicAjax "/api/v2/public/level2".
Definition getPublicTickLevel2 (symbol : string) :=
  _publicAjax ("/api/v2/public/level2/" +:+ encodeURIComponent symbol).

Definition getAccount :=
  _authAjax (web_api_address this +:+ "/api/v2/account") None JUndefined.
Definition getTradeSession :=
  _authAjax (web_api_address this +:+ "/api/v2/tradesession") None JUndefined.
Definition getAllCurrencies :=
  _authAjax (web_api_address this +:+ "/api/v2/currency") None JUndefined.
Definition getCurrency (currency : string) :=
  _authAjax (web_api_address this +:+ "/api/v2/currency/" +:+ encodeURIComponent currency)
    None JUndefined.
Definition getAllSymbols :=
  _authAjax (web_api_address this +:+ "/api/v2/symbol") None JUndefined.
Definition getSymbol (symbol : string) :=
  _authAjax (web_api_address this +:+ "/api/v2/symbol/" +:+ encodeURIComponent symbol)
    None JUndefined.
Definition getAllTicks :=
  _authAjax (web_api_address this +:+ "/api/v2/tick") None JUndefined.
Definition getTick (symbol : string) :=
  _authAjax (web_api_address this +:+ "/api/v2/tick/" +:+ encodeURIComponent symbol)
    None JUndefined.
Definition getAllTicksLevel2 :=
  _authAjax (web_api_address this +:+ "/api/v2/level2") None JUndefined.
Definition getTickLevel2 (symbol : string) :=
  _authAjax (web_api_address this +:+ "/api/v2/level2/" +:+ encodeURIComponent symbol)
    None JUndefined.
Definition getAllAssets :=
  _authAjax (web_api_address this +:+ "/api/v2/asset") None JUndefined.
Definition getAsset (currency : string) :=
  _authAjax (web_api_address this +:+ "/api/v2/asset/" +:+ encodeURIComponent currency)
    None JUndefined.
Definition getAllPositions :=
  _authAjax (web_api_address this +:+ "/api/v2/position") None JUndefined.
Definition getPosition (symbol : string) :=
  _authAjax (web_api_address this +:+ "/api/v2/position/" +:+ encodeURIComponent symbol)
    None JUndefined.
Definition getAllTrades :=
  _authAjax (web_api_address this +:+ "/api/v2/trade") None JUndefined.
Definition getTrade (tradeId : string) :=
  _authAjax (web_api_address this +:+ "/api/v2/trade/" +:+ tradeId) None JUndefined.
Definition createTrade (data : value) :=
  _authAjax (web_api_address this +:+ "/api/v2/trade") (Some "POST") data.
Definition modifyTrade (data : value) :=
  _authAjax (web_api_address this +:+ "/api/v2/trade") (Some "PUT") data.
Definition cancelTrade (tradeId : string) :=
  _authAjax (web_api_address this +:+ "/api/v2/trade?type=Cancel&id=" +:+ to_string tradeId)
    (Some "DELETE") JUndefined.
Definition closeTrade (tradeId : string) (amount : value) :=
  let amount := match amount with JUndefined => JNull | _ => amount end in
  let url :=
    (web_api_address this +:+ "/api/v2/trade?type=Close&id=" +:+ to_string tradeId)
    +:+ (if truthy amount then "&amount=" +:+ to_string amount else EmptyString) in
  _authAjax url (Some "DELETE") JUndefined.
Definition closeByTrade (tradeId byTradeId : string) :=
  let url :=
    web_api_address this +:+ "/api/v2/trade?type=CloseBy&id=" +:+ to_string tradeId
    +:+ "&byid=" +:+ to_string byTradeId in
  _authAjax url (Some "DELETE") JUndefined.
Definition getTradeHistory (data : value) :=
  _authAjax (web_api_address this +:+ "/api/v2/tradehistory") (Some "POST") data.
Definition getTradeHistoryByTradeId (tradeId : string) (data : value) :=
  _authAjax (web_api_address this +:+ "/api/v2/tradehistory/" +:+ to_string tradeId)
    (Some "POST") data.

End Operations.

(** The operations by name, as for the Node.js client. *)
Definition invoke (this : client) (op : Node.operation) : js sent unit :=
  match op with
  | Node.GetAccount => getAccount this
  | Node.GetTradeSession => getTradeSession this
  | Node.GetAllCurrencies => getAllCurrencies this
  | Node.GetCurrency currency => getCurrency this currency
  | Node.GetAllSymbols => getAllSymbols this
  | Node.GetSymbol symbol => getSymbol this symbol
  | Node.GetAllTicks => getAllTicks this
  | Node.GetTick symbol => getTick this symbol
  | Node.GetAllTicksLevel2 => getAllTicksLevel2 this
  | Node.GetTickLevel2 symbol => getTickLevel2 this symbol
  | Node.GetAllAssets => getAllAssets this
  | Node.GetAsset currency => getAsset this currency
  | Node.GetAllPositions => getAllPositions this
  | Node.GetPosition symbol => getPosition this symbol
  | Node.GetAllTrades => getAllTrades this
  | Node.GetTrade tradeId => getTrade this tradeId
  | Node.CreateTrade request => createTrade this request
  | Node.ModifyTrade request => modifyTrade this request
  | Node.CancelTrade tradeId => cancelTrade this tradeId
  | Node.CloseTrade tradeId amount => closeTrade this tradeId amount
  | Node.CloseByTrade tradeId byTradeId => closeByTrade this tradeId byTradeId
  | Node.GetTradeHistory request => getTradeHistory this request
  | Node.GetTradeHistoryByTradeId tradeId request =>
      getTradeHistoryByTradeId this tradeId request
  end.

Definition invoke_public (this : client) (op : Node.public_operation) : js sent unit :=
  match op with
  | Node.GetPublicTradeSession => getPublicTradeSession this
  | Node.GetPublicAllCurrencies => getPublicAllCurrencies this
  | Node.GetPublicCurrency currency => getPublicCurrency this currency
  | Node.GetPublicAllSymbols => getPublicAllSymbols this
  | Node.GetPublicSymbol symbol => getPublicSymbol this symbol
  | Node.GetPublicAllTicks => getPublicAllTicks this
  | Node.GetPublicTick symbol => getPublicTick this symbol
  | Node.GetPublicAllTicksLevel2 => getPublicAllTicksLevel2 this
  | Node.GetPublicTickLevel2 symbol => getPublicTickLevel2 this symbol
  end.

End Browser.

(** ** The push-notification client, [src/unnamed/part_001]

    The module keeps a registry of callbacks and a counter; [TTWebClient._ws]
    is the socket made by the last [connect].  The functions a caller hands
    over are known by name only (a [handler]); what the client does with
    them is to call them, and the calls are logged.  A handler is taken not
    to call back into the client while it runs.  The platform decides
    whether [WebSocket] exists, whether it accepts a URL, and whether a call
    returns or throws. *)

Module Socket.

(** [WebSocket.CONNECTING], [OPEN], [CLOSING] and [CLOSED]. *)
Definition CONNECTING : Z := 0.
Definition OPEN : Z := 1.
Definition CLOSING : Z := 2.
Definition CLOSED : Z := 3.

(** The members the registry object [{}] inherits from [Object.prototype]. *)
Definition Object_prototype : list string :=
  [ "constructor"; "__defineGetter__"; "__defineSetter__"; "hasOwnProperty";
    "__lookupGetter__"; "__lookupSetter__"; "isPrototypeOf";
    "propertyIsEnumerable"; "toString"; "valueOf"; "__proto__";
    "toLocaleString" ].

Definition inherited (name : string) : bool :=
  existsb (String.eqb name) Object_prototype.

Fixpoint own (name : string) (properties : list (string * value)) : value :=
  match properties with
  | [] => JUndefined
  | (k, v) :: rest => if String.eqb k name then v else own name rest
  end.

(** [data.callbackId]: reading a property of [null] or [undefined] throws;
    a boolean, a number, a string or an array has no such property. *)
Definition callbackId_of (data : value) : outcome value :=
  match data with
  | JUndefined | JNull => Thrown "TypeError"
  | JObj properties => Returned (own "callbackId" properties)
  | _ => Returned JUndefined
  end.

Section Client.

Variable handler : Type.

Record platform := Platform {
  has_WebSocket : bool;
  accepts : string -> bool;
  returns : handler -> value -> bool;
  inherited_returns : string -> value -> bool
}.

Variable P : platform.

(** A socket: its state, the frames sent on it, oldest first, and the
    handlers [connect] put on it; [onMessage] is the one the [onmessage]
    closure of [connect] has captured. *)
Record websocket := WebSocket {
  ws_url : string;
  readyState : Z;
  frames : list string;
  onopen : option handler;
  onMessage : option handler;
  onclose : option handler;
  onerror : option handler
}.

Record state := State {
  _callbacks : gmap string handler;
  _nextCallbackId : Z;
  _ws : option nat;
  sockets : list websocket;
  calls : list (handler * value);
  warnings : list string
}.

(** The module as it is loaded. *)
Definition loaded : state := State ∅ 1 None [] [] [].

(** ['cb' + (_nextCallbackId++)] *)
Definition _generateCallbackId (s : state) : string * state :=
  ("cb" +:+ to_string (_nextCallbackId s),
   State (_callbacks s) (_nextCallbackId s + 1) (_ws s) (sockets s) (calls s)
     (warnings s)).

Definition warn (s : state) : state :=
  State (_callbacks s) (_nextCallbackId s) (_ws s) (sockets s) (calls s)
    (warnings s ++ ["WebSocket not connected or unsupported"]).

(** [ws.send(text)] *)
Definition send (text : string) (ws : websocket) : websocket :=
  WebSocket (ws_url ws) (readyState ws) (frames ws ++ [text])
    (onopen ws) (onMessage ws) (onclose ws) (onerror ws).

(** [ws.close()]: an open or connecting socket starts closing. *)
Definition close (ws : websocket) : websocket :=
  WebSocket (ws_url ws)
    (if (readyState ws <? CLOSING)%Z then CLOSING else readyState ws)
    (frames ws) (onopen ws) (onMessage ws) (onclose ws) (onerror ws).

Definition with_sockets (l : list websocket) (s : state) : state :=
  State (_callbacks s) (_nextCallbackId s) (_ws s) l (calls s) (warnings s).

Definition _sendMessage (message : value) (s : state) : state :=
  match (if has_WebSocket P then _ws s else None) with
  | Some i =>
      match sockets s !! i with
      | Some ws =>
          if (readyState ws =? OPEN)%Z then
            with_sockets
              (<[ i := send (to_string (JSON_stringify message)) ws ]> (sockets s)) s
          else warn s
      | None => warn s
      end
  | None => warn s
  end.

Definition connect (url : string) (onOpen onMessage onClose onError : option handler)
    (s : state) : outcome unit * state :=
  if negb (has_WebSocket P) then (Thrown "ReferenceError", s)
  else if negb (accepts P url) then (Thrown "SyntaxError", s)
  else
    (Returned tt,
     State (_callbacks s) (_nextCallbackId s) (Some (length (sockets s)))
       (sockets s ++ [WebSocket url CONNECTING [] onOpen onMessage onClose onError])
       (calls s) (warnings s)).

Definition disconnect (s : state) : state :=
  match _ws s with
  | Some i =>
      State (_callbacks s) (_nextCallbackId s) None (alter close i (sockets s))
        (calls s) (warnings s)
  | None => s
  end.

Definition sendRequest (method params : value) (callback : option handler)
    (s : state) : state :=
  let (callbackId, s) := _generateCallbackId s in
  let s :=
    match callback with
    | Some h =>
        State (<[ callbackId := h ]> (_callbacks s)) (_nextCallbackId s) (_ws s)
          (sockets s) (calls s) (warnings s)
    | None => s
    end in
  _sendMessage
    (JObj [("method", method); ("params", params); ("callbackId", JStr callbackId)]) s.

Definition getVersion : string := "1.0.0".

(** The call [h(data)] by the client. *)
Definition call (h : handler) (data : value) (s : state) : outcome unit * state :=
  (if returns P h data then Returned tt else Thrown "exception in a handler",
   State (_callbacks s) (_nextCallbackId s) (_ws s) (sockets s)
     (calls s ++ [(h, data)]) (warnings s)).

(** The [onmessage] closure of [connect], on the value [JSON.parse] made of
    the frame. *)
Definition onmessage (onMessage : option handler) (data : value) (s : state)
    : outcome unit * state :=
  let otherwise :=
    match onMessage with
    | Some h => call h data s
    | None => (Returned tt, s)
    end in
  match callbackId_of data with
  | Thrown message => (Thrown message, s)
  | Returned id =>
      if truthy id then
        match _callbacks s !! to_string id with
        | Some h =>
            match call h data s with
            | (Returned _, s) =>
                (Returned tt,
                 State (delete (to_string id) (_callbacks s)) (_nextCallbackId s)
                   (_ws s) (sockets s) (calls s) (warnings s))
            | thrown => thrown
            end
        | None =>
            if inherited (to_string id) then
              (if inherited_returns P (to_string id) data then Returned tt
               else Thrown "TypeError", s)
            else otherwise
        end
      else otherwise
  end.

(** The event object the platform hands to [onopen], [onclose] and
    [onerror], as far as the log of calls tells events apart. *)
Definition event (type : string) : value := JObj [("type", JStr type)].

(** The platform calls a handler that [connect] put on a socket; what the
    handler throws does not reach the client. *)
Definition notify (h : option handler) (type : string) (s : state) : state :=
  match h with
  | Some h =>
      State (_callbacks s) (_nextCallbackId s) (_ws s) (sockets s)
        (calls s ++ [(h, event type)]) (warnings s)
  | None => s
  end.

Definition listener (pick : websocket -> option handler) (fires : websocket -> bool)
    (i : nat) (s : state) : option handler :=
  match sockets s !! i with
  | Some ws => if fires ws then pick ws else None
  | None => None
  end.

(** What happens to the module: calls by its user, and events of the
    platform on the sockets made so far: a connecting socket opens and its
    [onopen] is called, a socket closes and its [onclose] is called, a
    socket fails and its [onerror] is called, a frame arrives.  A frame that
    is not JSON text ([None]) makes [JSON.parse] throw. *)
Inductive action : Type :=
  | Connect (url : string) (onOpen onMessage onClose onError : option handler)
  | Disconnect
  | SendRequest (method params : value) (callback : option handler)
  | Opens (i : nat)
  | Closes (i : nat)
  | Fails (i : nat)
  | Message (i : nat) (parsed : option value).

Definition step (s : state) (a : action) : outcome unit * state :=
  match a with
  | Connect url onOpen onMessage onClose onError =>
      connect url onOpen onMessage onClose onError s
  | Disconnect => (Returned tt, disconnect s)
  | SendRequest method params callback =>
      (Returned tt, sendRequest method params callback s)
  | Opens i =>
      (Returned tt,
       notify (listener onopen (fun ws => (readyState ws =? CONNECTING)%Z) i s) "open"
         (with_sockets
            (alter (fun ws =>
                      WebSocket (ws_url ws)
                        (if (readyState ws =? CONNECTING)%Z then OPEN else readyState ws)
                        (frames ws) (onopen ws) (onMessage ws) (onclose ws) (onerror ws))
                   i (sockets s)) s))
  | Closes i =>
      (Returned tt,
       notify (listener onclose (fun ws => negb (readyState ws =? CLOSED)%Z) i s) "close"
         (with_sockets
            (alter (fun ws =>
                      WebSocket (ws_url ws) CLOSED (frames ws) (onopen ws) (onMessage ws)
                        (onclose ws) (onerror ws))
                   i (sockets s)) s))
  | Fails i =>
      (Returned tt, notify (listener onerror (fun _ => true) i s) "error" s)
  | Message i parsed =>
      match sockets s !! i with
      | Some ws =>
          match parsed with
          | Some data => onmessage (onMessage ws) data s
          | None => (Thrown "SyntaxError", s)
          end
      | None => (Returned tt, s)
      end
  end.

Fixpoint run (s : state) (actions : list action) : state :=
  match actions with
  | [] => s
  | a :: rest => run (snd (step s a)) rest
  end.

End Client.

Arguments Platform {handler} _ _ _ _.
Arguments has_WebSocket {handler} _.
Arguments accepts {handler} _ _.
Arguments returns {handler} _ _ _.
Arguments inherited_returns {handler} _ _ _.
Arguments _callbacks {handler} _.
Arguments _nextCallbackId {handler} _.
Arguments _ws {handler} _.
Arguments sockets {handler} _.
Arguments calls {handler} _.
Arguments warnings {handler} _.
Arguments readyState {handler} _.
Arguments frames {handler} _.
Arguments onMessage {handler} _.
Arguments loaded {handler}.
Arguments _generateCallbackId {handler} _.
Arguments _sendMessage {handler} _ _ _.
Arguments connect {handler} _ _ _ _ _ _ _.
Arguments disconnect {handler} _.
Arguments sendRequest {handler} _ _ _ _ _.
Arguments onmessage {handler} _ _ _ _.
Arguments step {handler} _ _ _.
Arguments run {handler} _ _ _.
Arguments Connect {handler} _ _ _ _ _.
Arguments Disconnect {handler}.
Arguments SendRequest {handler} _ _ _.
Arguments Opens {handler} _.
Arguments Closes {handler} _.
Arguments Fails {handler} _.
Arguments notify {handler} _ _ _.
Arguments Message {handler} _ _.

End Socket.

(** ** The signing protocol in the words of the specification *)

Module Spec.

(** The canonical signing string: timestamp as a decimal string, id, key,
    uppercased method token, full URL and body text, with no separators. *)
Definition canonical (timestamp : Z) (id key method url body : string) : string :=
  decimal timestamp +:+ id +:+ key +:+ toUpperCase method +:+ url +:+ body.

(** [HMAC {id}:{key}:{timestamp}:{signature}] *)
Definition header (id key : string) (timestamp : Z) (signature : string) : string :=
  "HMAC " +:+ id +:+ ":" +:+ key +:+ ":" +:+ decimal timestamp +:+ ":" +:+ signature.

(** The header value for a request: the signature is the Base64 text of
    the HMAC-SHA256, keyed by the secret, of the canonical string. *)
Definition authorization (id key secret : string) (timestamp : Z)
    (method url body : string) : string :=
  header id key timestamp
    (Crypto.hmac_sha256_base64 secret (canonical timestamp id key method url body)).

(** A credential string is missing when it was not given or is empty. *)
Definition missing (a : arg) : Prop := a = None \/ a = Some EmptyString.

Definition incomplete (id key secret : arg) : Prop :=
  missing id \/ missing key \/ missing secret.

End Spec.

(** What a body contributes to the string signed by [Node._signRequest]. *)
Definition signed_body (data : value) : string :=
  if truthy data then to_string (JSON_stringify data) else EmptyString.

(** The config [Node._signRequest] returns under the credentials
    [id], [key], [secret] at the time [timestamp]. *)
Definition authorized (id key secret : string) (timestamp : Z) (c : Node.config)
    : Node.config :=
  {| Node.method := Node.method c;
     Node.url := Node.url c;
     Node.data := Node.data c;
     Node.headers :=
       Some (<[ "Authorization" :=
                  Spec.authorization id key secret timestamp
                    (Node.method c) (Node.url c) (signed_body (Node.data c)) ]>
               (default ∅ (Node.headers c))) |}.

(** A client holding the three credential strings, none of them empty. *)
Definition has_credentials (this : Node.client) (id key secret : string) : Prop :=
  Node.web_api_id this = Some id /\ Node.web_api_key this = Some key
  /\ Node.web_api_secret this = Some secret
  /\ id <> EmptyString /\ key <> EmptyString /\ secret <> EmptyString.

(** Single quotes stand for double quotes in the JSON texts written below. *)
Definition json (s : string) : string :=
  string_of_list_ascii
    (map (fun c => if Ascii.eqb c "'" then dquote else c) (list_ascii_of_string s)).

(** The end-to-end example of the specification: base [http://x], id [A],
    key [B], secret [C], a market order, and a fixed clock. *)
Definition example_time : Z := 1700000000000.
Definition example_world : world Node.config := World example_time [].
Definition example_client : Node.client :=
  Node.Client "http://x" (Some "A") (Some "B") (Some "C").
Definition example_trade : value :=
  JObj [("type", JStr "Market"); ("side", JStr "Buy");
        ("symbol", JStr "EURUSD"); ("amount", JNum 1000)].

Definition example_browser_client : Browser.client :=
  Browser.Client "http://x" (Some "A") (Some "B") (Some "C").

(** Running [m] hands the transport one request, with this method token
    and this URL. *)
Definition requests (m : js Node.config unit) (w : world Node.config)
    (method url : string) : Prop :=
  exists r, sends m w r /\ Node.method r = method /\ Node.url r = url.

(** Running [m] hands the transport one request, for this URL. *)
Definition asks_for (m : js Node.config unit) (w : world Node.config)
    (url : string) : Prop :=
  exists r, sends m w r /\ Node.url r = url.

(** Two configs agree on two of the three parts a request contributes to
    the signed string (the uppercased method token, the URL, the body text)
    and differ on the third. *)
Definition differ_in_one_part (c1 c2 : Node.config) : Prop :=
  let m1 := toUpperCase (Node.method c1) in
  let m2 := toUpperCase (Node.method c2) in
  let b1 := signed_body (Node.data c1) in
  let b2 := signed_body (Node.data c2) in
  (m1 <> m2 /\ Node.url c1 = Node.url c2 /\ b1 = b2)
  \/ (m1 = m2 /\ Node.url c1 <> Node.url c2 /\ b1 = b2)
  \/ (m1 = m2 /\ Node.url c1 = Node.url c2 /\ b1 <> b2).

(** The public and the private operations that splice a symbol name or a
    currency code into the path, each with the path it is appended to. *)
Definition public_symbol_operations (this : Node.client)
    : list ((string -> js Node.config unit) * string) :=
  [ (Node.getPublicCurrency this, "/api/v2/public/currency/");
    (Node.getPublicSymbol this, "/api/v2/public/symbol/");
    (Node.getPublicTick this, "/api/v2/public/tick/");
    (Node.getPublicTickLevel2 this, "/api/v2/public/level2/") ].

Definition private_symbol_operations (this : Node.client)
    : list ((string -> js Node.config unit) * string) :=
  [ (Node.getCurrency this, "/api/v2/currency/");
    (Node.getSymbol this, "/api/v2/symbol/");
    (Node.getTick this, "/api/v2/tick/");
    (Node.getTickLevel2 this, "/api/v2/level2/");
    (Node.getAsset this, "/api/v2/asset/");
    (Node.getPosition this, "/api/v2/position/") ].

(** A symbol operation the client can run: a public one, or a private one
    on a client with complete credentials. *)
Definition symbol_operation (this : Node.client) (id key secret : string)
    (f : string -> js Node.config unit) (path : string) : Prop :=
  In (f, path) (public_symbol_operations this)
  \/ (has_credentials this id key secret
      /\ In (f, path) (private_symbol_operations this)).

(** The bytes are the UTF-8 encoding of a text, that is of a JavaScript
    string without an unpaired surrogate: the strings on which
    [encodeURIComponent] returns; on the others it throws a URIError. *)
Fixpoint utf8 (bytes : list nat) : bool :=
  let continues b := (128 <=? b)%nat && (b <=? 191)%nat in
  match bytes with
  | [] => true
  | b0 :: rest =>
      if (b0 <? 128)%nat then utf8 rest
      else
        match rest with
        | [] => false
        | b1 :: rest1 =>
            if (194 <=? b0)%nat && (b0 <=? 223)%nat then continues b1 && utf8 rest1
            else
              match rest1 with
              | [] => false
              | b2 :: rest2 =>
                  if (224 <=? b0)%nat && (b0 <=? 239)%nat then
                    continues b1 && continues b2
                    && (if (b0 =? 224)%nat then (160 <=? b1)%nat else true)
                    && (if (b0 =? 237)%nat then (b1 <=? 159)%nat else true)
                    && utf8 rest2
                  else
                    match rest2 with
                    | [] => false
                    | b3 :: rest3 =>
                        (240 <=? b0)%nat && (b0 <=? 244)%nat
                        && continues b1 && continues b2 && continues b3
                        && (if (b0 =? 240)%nat then (144 <=? b1)%nat else true)
                        && (if (b0 =? 244)%nat then (b1 <=? 143)%nat else true)
                        && utf8 rest3
                    end
              end
        end
  end.

Definition well_formed (s : string) : bool :=
  utf8 (map nat_of_ascii (list_ascii_of_string s)).

(** The text a public operation is given, if it takes one. *)
Definition public_parameter (op : Node.public_operation) : string :=
  match op with
  | Node.GetPublicCurrency p | Node.GetPublicSymbol p | Node.GetPublicTick p
  | Node.GetPublicTickLevel2 p => p
  | _ => EmptyString
  end.

(** String conversion of the value returns: no object in it has an own
    [toString] property, which in JSON-like data is not callable and makes
    the conversion throw a TypeError. *)
Fixpoint converts (v : value) : bool :=
  match v with
  | JObj properties =>
      negb (existsb (fun kv => String.eqb (fst kv) "toString") properties)
  | JArr elements =>
      (fix all (l : list value) : bool :=
         match l with
         | [] => true
         | x :: l' => converts x && all l'
         end) elements
  | _ => true
  end.

(** The characters of a string. *)
Definition chars (s : string) : list ascii := list_ascii_of_string s.

(** The two clients hold the same address and credentials. *)
Definition same_client (n : Node.client) (b : Browser.client) : Prop :=
  Browser.web_api_address b = Node.web_api_address n
  /\ Browser.web_api_id b = Node.web_api_id n
  /\ Browser.web_api_key b = Node.web_api_key n
  /\ Browser.web_api_secret b = Node.web_api_secret n.

(** The actions that only make, open or close connections. *)
Definition is_connection {handler : Type} (a : Socket.action handler) : bool :=
  match a with
  | Socket.Connect _ _ _ _ _ | Socket.Disconnect | Socket.Opens _ | Socket.Closes _
  | Socket.Fails _ => true
  | Socket.SendRequest _ _ _ | Socket.Message _ _ => false
  end.

(** The frame [sendRequest] sends for a request under an identifier. *)
Definition request_frame (method params : value) (callbackId : string) : string :=
  to_string
    (JSON_stringify
       (JObj [("method", method); ("params", params); ("callbackId", JStr callbackId)])).

(** The registry after [sendRequest] was given [callback] under [id]. *)
Definition registered {handler : Type} (id : string) (callback : option handler)
    (callbacks : gmap string handler) : gmap string handler :=
  match callback with
  | Some h => <[ id := h ]> callbacks
  | None => callbacks
  end.

(** The counter is an integer JavaScript counts exactly. *)
Definition exact (n : Z) : Prop := (n < 2 ^ 53)%Z.

(** Every registered identifier was handed out by the counter. *)
Definition ids_below {handler : Type} (s : Socket.state handler) : Prop :=
  (1 <= Socket._nextCallbackId s)%Z
  /\ forall k h, Socket._callbacks s !! k = Some h ->
       exists n, (1 <= n < Socket._nextCallbackId s)%Z /\ k = "cb" +:+ decimal n.

(** A platform with sockets, on which every call returns. *)
Definition example_platform : Socket.platform string :=
  Socket.Platform true (fun _ => true) (fun _ _ => true) (fun _ _ => true).

(** A platform on which every call of a handler throws. *)
Definition throwing_platform : Socket.platform string :=
  Socket.Platform true (fun _ => true) (fun _ _ => false) (fun _ _ => true).

(** A history: a socket is made and opened, and a subscription is sent on
    it with a callback. *)
Definition example_history : list (Socket.action string) :=
  [ Socket.Connect "ws://x" None (Some "onMessage") None None;
    Socket.Opens 0;
    Socket.SendRequest (JStr "subscribe") (JObj []) (Some "onTicks") ].

Definition example_socket : Socket.websocket string :=
  Socket.WebSocket string "ws://x" Socket.OPEN
    [json "{'method':'subscribe','params':{},'callbackId':'cb1'}"]
    None (Some "onMessage") None None.

Definition example_reply : value :=
  JObj [("callbackId", JStr "cb1"); ("result", JNum 1)].

(** * Properties *)

(** ** Strings *)

Section StringFacts.

Lemma append_cons (x : ascii) (a b : string) :
  String x a +:+ b = String x (a +:+ b).
Proof. reflexivity. Qed.

Lemma append_nil_r (s : string) : s +:+ EmptyString = s.
Proof.
  induction s as [|x s IH]; [reflexivity |].
  now rewrite append_cons, IH.
Qed.

Lemma append_assoc (a b c : string) : (a +:+ b) +:+ c = a +:+ b +:+ c.
Proof.
  induction a as [|x a IH]; [reflexivity |].
  now rewrite !append_cons, IH.
Qed.

Lemma length_append (a b : string) :
  String.length (a +:+ b) = (String.length a + String.length b)%nat.
Proof.
  induction a as [|x a IH]; [reflexivity |].
  rewrite append_cons. simpl. now rewrite IH.
Qed.

Lemma append_inv_head (p a b : string) : p +:+ a = p +:+ b -> a = b.
Proof.
  induction p as [|x p IH]; intros H; [exact H |].
  rewrite !append_cons in H. injection H as H. now apply IH.
Qed.

Lemma append_inv_tail (a b t : string) : a +:+ t = b +:+ t -> a = b.
Proof.
  revert b. induction a as [|x a IH]; intros [|y b] H.
  - reflexivity.
  - apply (f_equal String.length) in H.
    rewrite !length_append in H. simpl in H. lia.
  - apply (f_equal String.length) in H.
    rewrite !length_append in H. simpl in H. lia.
  - rewrite !append_cons in H. injection H as -> H. f_equal. now apply IH.
Qed.

Lemma append_tail_neq (s t : string) : t <> EmptyString -> s <> s +:+ t.
Proof.
  intros Ht H. apply (f_equal String.length) in H.
  rewrite length_append in H. destruct t; [contradiction | simpl in H; lia].
Qed.

End StringFacts.

(** ** Coercions *)

Lemma truthy_given (s : string) : s <> EmptyString -> truthy (Some s) = true.
Proof. destruct s; [contradiction | reflexivity]. Qed.

Lemma missing_falsy (a : arg) : Spec.missing a <-> truthy a = false.
Proof.
  split.
  - intros [-> | ->]; reflexivity.
  - destruct a as [[|c s]|]; [now right | discriminate | now left].
Qed.

Lemma given_truthy (a : arg) :
  ~ Spec.missing a <-> exists s, a = Some s /\ s <> EmptyString.
Proof.
  split.
  - intros H. destruct a as [[|c s]|].
    + destruct H. now right.
    + exists (String c s). split; [reflexivity | discriminate].
    + destruct H. now left.
  - intros (s & -> & Hs) [H | H]; [discriminate | congruence].
Qed.

(** A truthy body always has a JSON text. *)
Lemma truthy_has_json (v : value) : truthy v = true -> is_Some (JSON_stringify v).
Proof. destruct v as [| |[|]| | | |]; simpl; intros H; try discriminate; eauto. Qed.

(** ** The signer of the Node.js client *)

Lemma signature_canonical (timestamp : Z) (id key : string) (c : Node.config) :
  Node.signature timestamp (Some id) (Some key) c
  = Spec.canonical timestamp id key (Node.method c) (Node.url c)
      (signed_body (Node.data c)).
Proof. reflexivity. Qed.

Lemma signRequest_returns (c : Node.config) (id key secret : string)
    (w : world Node.config) :
  id <> EmptyString -> key <> EmptyString -> secret <> EmptyString ->
  Node._signRequest c (Some id) (Some key) (Some secret) w
  = (Returned (authorized id key secret (clock w) c), w).
Proof.
  intros Hid Hkey Hsecret. unfold Node._signRequest.
  rewrite (truthy_given id Hid), (truthy_given key Hkey), (truthy_given secret Hsecret).
  reflexivity.
Qed.

Lemma authorized_header (id key secret : string) (timestamp : Z) (c : Node.config) :
  Node.header "Authorization" (authorized id key secret timestamp c)
  = Some (Spec.authorization id key secret timestamp
            (Node.method c) (Node.url c) (signed_body (Node.data c))).
Proof. unfold Node.header, authorized. simpl. apply lookup_insert_eq. Qed.

Lemma authorized_other_header (id key secret : string) (timestamp : Z)
    (c : Node.config) (name : string) :
  name <> "Authorization" ->
  Node.header name (authorized id key secret timestamp c) = Node.header name c.
Proof.
  intros Hne. unfold Node.header, authorized. simpl.
  apply lookup_insert_ne. congruence.
Qed.

Lemma signed_sends (this : Node.client) (id key secret : string) (c : Node.config)
    (w : world Node.config) :
  has_credentials this id key secret ->
  sends (Node.signed this c) w (authorized id key secret (clock w) c).
Proof.
  intros (Hi & Hk & Hs & Hid & Hkey & Hsecret).
  unfold sends, Node.signed, bind. rewrite Hi, Hk, Hs.
  rewrite signRequest_returns by assumption. reflexivity.
Qed.

(** C1 (amended).  For every request config and every credential triple
    with non-empty id, key and secret, [_signRequest] returns a config
    whose [Authorization] header is [HMAC {id}:{key}:{timestamp}:{signature}],
    the signature being the Base64 text of the HMAC-SHA256, keyed by the
    secret, of: the timestamp in decimal, the id, the key, the uppercased
    method, the URL, and then the JSON text of the body when the body is
    truthy (and every truthy body has a JSON text), or nothing when the body
    is falsy: absent, [null], [false], [0] or the empty string. *)
Theorem signRequest_authorization (c : Node.config) (id key secret : string)
    (w : world Node.config) :
  id <> EmptyString -> key <> EmptyString -> secret <> EmptyString ->
  exists signed,
    Node._signRequest c (Some id) (Some key) (Some secret) w = (Returned signed, w)
    /\ (truthy (Node.data c) = true ->
        exists text,
          JSON_stringify (Node.data c) = Some text
          /\ Node.header "Authorization" signed
             = Some (Spec.authorization id key secret (clock w)
                       (Node.method c) (Node.url c) text))
    /\ (truthy (Node.data c) = false ->
        Node.header "Authorization" signed
        = Some (Spec.authorization id key secret (clock w)
                  (Node.method c) (Node.url c) EmptyString)).
Proof.
  intros Hid Hkey Hsecret.
  exists (authorized id key secret (clock w) c).
  split; [now apply signRequest_returns |].
  rewrite authorized_header. unfold signed_body. split; intros Hbody; rewrite Hbody.
  - destruct (truthy_has_json _ Hbody) as [text Htext].
    exists text. now rewrite Htext.
  - reflexivity.
Qed.

Lemma signRequest_authorization_witness :
  "A" <> EmptyString /\ "B" <> EmptyString /\ "C" <> EmptyString
  /\ exists signed,
      Node._signRequest
        (Node.Config "post" "http://x/api/v2/trade" example_trade Node.json_headers)
        (Some "A") (Some "B") (Some "C") example_world
      = (Returned signed, example_world)
      /\ Node.header "Authorization" signed
         = Some (Spec.authorization "A" "B" "C" example_time "POST"
                   "http://x/api/v2/trade"
                   (json "{'type':'Market','side':'Buy','symbol':'EURUSD','amount':1000}")).
Proof.
  repeat (split; [discriminate |]).
  destruct (signRequest_authorization
              (Node.Config "post" "http://x/api/v2/trade" example_trade Node.json_headers)
              "A" "B" "C" example_world) as (signed & Hrun & Htruthy & _);
    try discriminate.
  exists signed. split; [exact Hrun |].
  destruct (Htruthy eq_refl) as (text & Htext & Hheader).
  injection Htext as <-. exact Hheader.
Defined.

(** C1, as stated, fails for a body that is present but falsy: the body
    [false] has the JSON text [false], yet it is signed as if absent. *)
Lemma signRequest_falsy_body_counterexample :
  JSON_stringify (JBool false) = Some "false"
  /\ exists signed,
      Node._signRequest
        (Node.Config "POST" "http://x/api/v2/trade" (JBool false) Node.json_headers)
        (Some "A") (Some "B") (Some "C") example_world
      = (Returned signed, example_world)
      /\ Node.header "Authorization" signed
         = Some (Spec.authorization "A" "B" "C" example_time "POST"
                   "http://x/api/v2/trade" EmptyString)
      /\ Node.header "Authorization" signed
         <> Some (Spec.authorization "A" "B" "C" example_time "POST"
                    "http://x/api/v2/trade" "false").
Proof.
  split; [reflexivity |].
  eexists. split; [apply signRequest_returns; discriminate |].
  rewrite authorized_header. split; [reflexivity |].
  intros H. vm_compute in H. discriminate H.
Qed.

(** ** Credentials are checked before anything is sent *)

Lemma invoke_signed (this : Node.client) (op : Node.operation) :
  exists c, Node.invoke this op = Node.signed this c.
Proof. destruct op; eexists; reflexivity. Qed.

Lemma signRequest_throws (c : Node.config) (id key secret : arg)
    (w : world Node.config) :
  Spec.incomplete id key secret ->
  throws_unsent (Node._signRequest c id key secret) w.
Proof.
  intros H. unfold throws_unsent, Node._signRequest, throw.
  destruct (truthy id) eqn:Hid; simpl; [| eauto].
  destruct (truthy key) eqn:Hkey; simpl; [| eauto].
  destruct (truthy secret) eqn:Hsecret; simpl; [| eauto].
  destruct H as [H | [H | H]]; apply missing_falsy in H; congruence.
Qed.

Lemma browser_signRequest_throws (context : Browser.context)
    (request : gmap string string) (id key secret : arg)
    (w : world Browser.sent) :
  Spec.incomplete id key secret ->
  throws_unsent (Browser.signRequest context request id key secret) w.
Proof.
  intros H. unfold throws_unsent, Browser.signRequest, throw.
  assert (negb (truthy id) || negb (truthy key) || negb (truthy secret) = true)
    as ->; [| eauto].
  destruct H as [H | [H | H]]; apply missing_falsy in H; rewrite H; simpl;
    now rewrite ?orb_true_r.
Qed.



(** ** What is signed and what is sent *)

(** The Node.js client hands axios the very config it signed: same method
    token, same URL, same body. *)
Lemma node_signs_what_it_sends (this : Node.client) (id key secret : string)
    (c : Node.config) (w : world Node.config) :
  has_credentials this id key secret ->
  exists r,
    sends (Node.signed this c) w r
    /\ Node.method r = Node.method c /\ Node.url r = Node.url c
    /\ Node.data r = Node.data c
    /\ Node.header "Authorization" r
       = Some (Spec.authorization id key secret (clock w)
                 (Node.method r) (Node.url r) (signed_body (Node.data r))).
Proof.
  intros H. exists (authorized id key secret (clock w) c).
  split; [eapply signed_sends, H |].
  do 3 (split; [reflexivity |]).
  exact (authorized_header id key secret (clock w) c).
Qed.

(** The browser signer is handed the object itself, which string
    concatenation turns into [[object Object]], whatever its properties. *)
Lemma browser_signature_of_object (timestamp : Z) (id key : arg)
    (type url : string) (properties : list (string * value)) :
  Browser.signature timestamp id key (Browser.Ctx type url (JObj properties))
  = to_string timestamp +:+ to_string id +:+ to_string key +:+ type +:+ url
    +:+ "[object Object]".
Proof. reflexivity. Qed.

(** So for every object body the browser client sends the JSON text of the
    object under a signature taken over [[object Object]]. *)
Lemma browser_object_body (this : Browser.client) (id key secret : string)
    (url type : string) (properties : list (string * value))
    (w : world Browser.sent) :
  Browser.web_api_id this = Some id -> Browser.web_api_key this = Some key ->
  Browser.web_api_secret this = Some secret ->
  id <> EmptyString -> key <> EmptyString -> secret <> EmptyString ->
  sends (Browser._authAjax this url (Some type) (JObj properties)) w
    (Browser.Sent url type (JSON_stringify (JObj properties))
       (Some "application/json; charset=UTF-8")
       {[ "Authorization" :=
            Spec.header id key (clock w)
              (Crypto.hmac_sha256_base64 secret
                 (decimal (clock w) +:+ id +:+ key +:+ type +:+ url
                  +:+ "[object Object]")) ]}).
Proof.
  intros Hi Hk Hs Hid Hkey Hsecret.
  unfold sends, Browser._authAjax, Browser.ajax, bind, Browser.signRequest. simpl.
  rewrite Hi, Hk, Hs.
  rewrite (truthy_given id Hid), (truthy_given key Hkey), (truthy_given secret Hsecret).
  reflexivity.
Qed.

(** C3 at the failing input.  [createTrade] of the browser client, on the
    market order of the end-to-end example, sends the JSON text of the order
    under an [Authorization] header whose signature is taken over
    [[object Object]] in place of that text; the header differs from the one
    over the text sent, which is the one the Node.js client produces. *)
Theorem browser_createTrade_signs_other_body_than_sent :
  exists r,
    sends (Browser.createTrade example_browser_client example_trade)
      (World example_time []) r
    /\ Browser.sent_type r = "POST"
    /\ Browser.sent_url r = "http://x/api/v2/trade"
    /\ Browser.sent_data r
       = Some (json "{'type':'Market','side':'Buy','symbol':'EURUSD','amount':1000}")
    /\ Browser.sent_headers r !! "Authorization"
       = Some (Spec.authorization "A" "B" "C" example_time "POST"
                 "http://x/api/v2/trade" "[object Object]")
    /\ Browser.sent_headers r !! "Authorization"
       = Some "HMAC A:B:1700000000000:BuCSqqqTy5LLIqImCwPTePBG3XSdDJjO5mqZ4KChAJs="
    /\ Browser.sent_headers r !! "Authorization"
       <> Some (Spec.authorization "A" "B" "C" example_time "POST"
                  "http://x/api/v2/trade"
                  (json "{'type':'Market','side':'Buy','symbol':'EURUSD','amount':1000}"))
    /\ exists r',
        sends (Node.createTrade example_client example_trade) example_world r'
        /\ Node.header "Authorization" r'
           = Some (Spec.authorization "A" "B" "C" example_time "POST"
                     "http://x/api/v2/trade"
                     (json "{'type':'Market','side':'Buy','symbol':'EURUSD','amount':1000}")).
Proof.
  eexists. split; [reflexivity |].
  split; [reflexivity |]. split; [reflexivity |]. split; [reflexivity |].
  assert (forall v : string,
            Browser.setRequestHeader "Authorization" v ∅ !! "Authorization" = Some v)
    as Hset by (intros v; apply lookup_insert_eq).
  split; [apply Hset |].
  split; [etransitivity; [apply Hset | vm_compute; reflexivity] |].
  split.
  - intros H. vm_compute in H. discriminate H.
  - eexists. split.
    + eapply (signed_sends example_client "A" "B" "C").
      repeat split; discriminate.
    + apply authorized_header.
Qed.

(** ** Collisions of the signed string *)

(** C4 (amended).  With the timestamp and the credentials fixed, two
    requests that agree on two of the uppercased method token, the URL and
    the body text, and differ on the third, have different signing strings
    (so their signatures differ unless HMAC-SHA256 collides). *)
Theorem signature_separates_one_part (timestamp : Z) (id key : arg)
    (c1 c2 : Node.config) :
  differ_in_one_part c1 c2 ->
  Node.signature timestamp id key c1 <> Node.signature timestamp id key c2.
Proof.
  unfold differ_in_one_part, Node.signature. fold (signed_body (Node.data c1)).
  fold (signed_body (Node.data c2)).
  intros Hdiff Heq. do 3 apply append_inv_head in Heq.
  destruct Hdiff as [(Hm & Hu & Hb) | [(Hm & Hu & Hb) | (Hm & Hu & Hb)]].
  - rewrite Hu, Hb in Heq. now apply append_inv_tail in Heq.
  - rewrite Hm, Hb in Heq. apply append_inv_head in Heq.
    now apply append_inv_tail in Heq.
  - rewrite Hm, Hu in Heq. now do 2 apply append_inv_head in Heq.
Qed.

Lemma signature_separates_one_part_witness :
  differ_in_one_part
    (Node.Config "GET" "http://x/api/v2/trade/1" JUndefined None)
    (Node.Config "GET" "http://x/api/v2/trade/2" JUndefined None)
  /\ Node.signature example_time (Some "A") (Some "B")
       (Node.Config "GET" "http://x/api/v2/trade/1" JUndefined None)
     <> Node.signature example_time (Some "A") (Some "B")
          (Node.Config "GET" "http://x/api/v2/trade/2" JUndefined None).
Proof.
  assert (differ_in_one_part
            (Node.Config "GET" "http://x/api/v2/trade/1" JUndefined None)
            (Node.Config "GET" "http://x/api/v2/trade/2" JUndefined None)) as H.
  { right. left. repeat split. simpl. discriminate. }
  split; [exact H |].
  exact (signature_separates_one_part example_time (Some "A") (Some "B") _ _ H).
Defined.

(** C4, as stated, fails: the adversarial pair of the specification signs
    the same string and gets the same header; so do two requests that
    differ in the letter case of the method only, and two that differ in
    the body only, when both bodies are falsy. *)
Lemma signature_collisions_counterexample :
  Node.Config EmptyString "GETx" JUndefined None
  <> Node.Config "GET" "x" JUndefined None
  /\ Node.signature example_time (Some "A") (Some "B")
       (Node.Config EmptyString "GETx" JUndefined None)
     = Node.signature example_time (Some "A") (Some "B")
         (Node.Config "GET" "x" JUndefined None)
  /\ (exists s1 s2,
        Node._signRequest (Node.Config EmptyString "GETx" JUndefined None)
          (Some "A") (Some "B") (Some "C") example_world
        = (Returned s1, example_world)
        /\ Node._signRequest (Node.Config "GET" "x" JUndefined None)
             (Some "A") (Some "B") (Some "C") example_world
           = (Returned s2, example_world)
        /\ Node.header "Authorization" s1 = Node.header "Authorization" s2
        /\ Node.header "Authorization" s1
           = Some "HMAC A:B:1700000000000:o4TRBzIV4yWrHEDVnFdxNdPQJ9Dmwf7cMNmQPyhX82g=")
  /\ Node.signature example_time (Some "A") (Some "B")
       (Node.Config "get" "http://x/api/v2/account" JUndefined None)
     = Node.signature example_time (Some "A") (Some "B")
         (Node.Config "GET" "http://x/api/v2/account" JUndefined None)
  /\ Node.signature example_time (Some "A") (Some "B")
       (Node.Config "POST" "http://x/api/v2/trade" JUndefined None)
     = Node.signature example_time (Some "A") (Some "B")
         (Node.Config "POST" "http://x/api/v2/trade" JNull None).
Proof.
  split; [discriminate |]. split; [reflexivity |]. split.
  - do 2 eexists.
    split; [apply signRequest_returns; discriminate |].
    split; [apply signRequest_returns; discriminate |].
    rewrite !authorized_header. split; [reflexivity |].
    vm_compute. reflexivity.
  - split; reflexivity.
Qed.

(** C5.  For a fixed timestamp, credentials, method and URL, an absent body
    contributes nothing to the signing string, an empty object contributes
    its JSON text [{}], and the two signing strings differ. *)
Theorem absent_body_differs_from_empty_object (timestamp : Z) (id key : arg)
    (method url : string) (h1 h2 : option (gmap string string)) :
  Node.signature timestamp id key (Node.Config method url JUndefined h1)
  = to_string timestamp +:+ to_string id +:+ to_string key
    +:+ toUpperCase method +:+ url
  /\ Node.signature timestamp id key (Node.Config method url (JObj []) h2)
     = to_string timestamp +:+ to_string id +:+ to_string key
       +:+ toUpperCase method +:+ url +:+ "{}"
  /\ Node.signature timestamp id key (Node.Config method url JUndefined h1)
     <> Node.signature timestamp id key (Node.Config method url (JObj []) h2).
Proof.
  assert (Node.signature timestamp id key (Node.Config method url JUndefined h1)
          = to_string timestamp +:+ to_string id +:+ to_string key
            +:+ toUpperCase method +:+ url) as Habsent.
  { unfold Node.signature. simpl. now rewrite append_nil_r. }
  split; [exact Habsent |]. split; [reflexivity |].
  rewrite Habsent. unfold Node.signature. simpl.
  intros H. do 4 apply append_inv_head in H.
  now apply (append_tail_neq url "{}") in H.
Qed.

(** ** The URLs of the dispatcher *)

(** A public operation sends its request whatever the credentials; a
    private one sends the signed config. *)
Ltac sent_as H :=
  eexists; split;
  [ first [ reflexivity | eapply signed_sends; exact H ]
  | split; reflexivity ].

Lemma encode_slash : encodeURIComponent "EUR/USD" = "EUR%2FUSD".
Proof. reflexivity. Qed.

(** C6 (amended).  Symbol names and currency codes, well-formed texts,
    are percent-encoded before they are appended to the path: in the public
    operations,
    whatever the credentials of the client, missing ones included, so that
    [getPublicSymbol("EUR/USD")] asks for [.../public/symbol/EUR%2FUSD];
    and in the private operations, which send under complete credentials.
    Trade identifiers are appended to the path as they are given
    ([getTrade], [getTradeHistoryByTradeId]). *)
Theorem path_parameters (this : Node.client) (id key secret : string)
    (w : world Node.config) (p : string) (request : value) :
  let base := Node.web_api_address this in
  well_formed p = true ->
  (asks_for (Node.getPublicCurrency this p) w
     (base +:+ "/api/v2/public/currency/" +:+ encodeURIComponent p)
   /\ asks_for (Node.getPublicSymbol this p) w
        (base +:+ "/api/v2/public/symbol/" +:+ encodeURIComponent p)
   /\ asks_for (Node.getPublicTick this p) w
        (base +:+ "/api/v2/public/tick/" +:+ encodeURIComponent p)
   /\ asks_for (Node.getPublicTickLevel2 this p) w
        (base +:+ "/api/v2/public/level2/" +:+ encodeURIComponent p)
   /\ asks_for (Node.getPublicSymbol this "EUR/USD") w
        (base +:+ "/api/v2/public/symbol/EUR%2FUSD"))
  /\ (has_credentials this id key secret ->
      asks_for (Node.getCurrency this p) w
        (base +:+ "/api/v2/currency/" +:+ encodeURIComponent p)
      /\ asks_for (Node.getSymbol this p) w
           (base +:+ "/api/v2/symbol/" +:+ encodeURIComponent p)
      /\ asks_for (Node.getTick this p) w
           (base +:+ "/api/v2/tick/" +:+ encodeURIComponent p)
      /\ asks_for (Node.getTickLevel2 this p) w
           (base +:+ "/api/v2/level2/" +:+ encodeURIComponent p)
      /\ asks_for (Node.getAsset this p) w
           (base +:+ "/api/v2/asset/" +:+ encodeURIComponent p)
      /\ asks_for (Node.getPosition this p) w
           (base +:+ "/api/v2/position/" +:+ encodeURIComponent p)
      /\ asks_for (Node.getTrade this p) w (base +:+ "/api/v2/trade/" +:+ p)
      /\ asks_for (Node.getTradeHistoryByTradeId this p request) w
           (base +:+ "/api/v2/tradehistory/" +:+ p)).
Proof.
  intros base _. unfold asks_for. split.
  - repeat match goal with |- _ /\ _ => split end;
      (eexists; split; reflexivity).
  - intros H.
    repeat match goal with |- _ /\ _ => split end;
      (eexists; split; [eapply signed_sends; exact H | reflexivity]).
Qed.

Lemma path_parameters_witness :
  well_formed "EUR/USD" = true
  /\ well_formed "7001" = true
  /\ asks_for (Node.getPublicSymbol (Node.Client "http://x" None None None) "EUR/USD")
       example_world "http://x/api/v2/public/symbol/EUR%2FUSD"
  /\ has_credentials example_client "A" "B" "C"
  /\ asks_for (Node.getSymbol example_client "EUR/USD") example_world
       "http://x/api/v2/symbol/EUR%2FUSD"
  /\ asks_for (Node.getTrade example_client "7001") example_world
       "http://x/api/v2/trade/7001".
Proof.
  assert (has_credentials example_client "A" "B" "C") as H
    by (repeat split; discriminate).
  destruct (path_parameters (Node.Client "http://x" None None None) "A" "B" "C"
              example_world "EUR/USD" JUndefined eq_refl) as [(_ & Hpublic & _) _].
  destruct (path_parameters example_client "A" "B" "C" example_world
              "EUR/USD" JUndefined eq_refl) as [_ Hsymbol].
  destruct (path_parameters example_client "A" "B" "C" example_world
              "7001" JUndefined eq_refl) as [_ Htrade].
  destruct (Hsymbol H) as (_ & Hs & _).
  destruct (Htrade H) as (_ & _ & _ & _ & _ & _ & Ht & _).
  split; [reflexivity |]. split; [reflexivity |].
  split; [exact Hpublic |]. split; [exact H |]. split; [exact Hs | exact Ht].
Defined.

(** C6, as stated, fails for trade identifiers: [getTrade("A/B")] asks for
    [.../trade/A/B], with the slash as it is. *)
Lemma getTrade_path_counterexample :
  exists r,
    sends (Node.getTrade example_client "A/B") example_world r
    /\ Node.url r = "http://x/api/v2/trade/A/B"
    /\ Node.url r <> "http://x/api/v2/trade/" +:+ encodeURIComponent "A/B".
Proof.
  eexists. split.
  - eapply (signed_sends example_client "A" "B" "C"). repeat split; discriminate.
  - split; [reflexivity | discriminate].
Qed.

(** C7.  [closeTrade(tradeId)] without an amount sends a DELETE to
    [{base}/api/v2/trade?type=Close&id={tradeId}], with no amount parameter
    and no body; [closeTrade("T123", 5)] sends it to the same URL followed
    by [&amount=5]. *)
Theorem closeTrade_url (this : Node.client) (id key secret : string)
    (w : world Node.config) (tradeId : string) :
  has_credentials this id key secret ->
  (exists r,
     sends (Node.closeTrade this tradeId JUndefined) w r
     /\ Node.method r = "DELETE"
     /\ Node.url r
        = Node.web_api_address this +:+ "/api/v2/trade?type=Close&id=" +:+ tradeId
     /\ Node.data r = JUndefined)
  /\ (exists r,
        sends (Node.closeTrade this "T123" (JNum 5)) w r
        /\ Node.method r = "DELETE"
        /\ Node.url r
           = Node.web_api_address this +:+ "/api/v2/trade?type=Close&id=T123&amount=5"
        /\ Node.data r = JUndefined).
Proof.
  intros H. split.
  - exists (authorized id key secret (clock w)
              (Node.Config "DELETE"
                 (Node.web_api_address this +:+ "/api/v2/trade?type=Close&id=" +:+ tradeId)
                 JUndefined None)).
    split; [apply (signed_sends this id key secret _ w H) |].
    repeat split.
  - exists (authorized id key secret (clock w)
              (Node.Config "DELETE"
                 (Node.web_api_address this +:+ "/api/v2/trade?type=Close&id=T123&amount=5")
                 JUndefined None)).
    split; [apply (signed_sends this id key secret _ w H) |].
    repeat split.
Qed.

Lemma closeTrade_url_witness :
  has_credentials example_client "A" "B" "C"
  /\ (exists r,
        sends (Node.closeTrade example_client "T123" JUndefined) example_world r
        /\ Node.method r = "DELETE"
        /\ Node.url r = "http://x/api/v2/trade?type=Close&id=T123"
        /\ Node.data r = JUndefined)
  /\ (exists r,
        sends (Node.closeTrade example_client "T123" (JNum 5)) example_world r
        /\ Node.method r = "DELETE"
        /\ Node.url r = "http://x/api/v2/trade?type=Close&id=T123&amount=5"
        /\ Node.data r = JUndefined).
Proof.
  assert (has_credentials example_client "A" "B" "C") as H
    by (repeat split; discriminate).
  split; [exact H |].
  exact (closeTrade_url example_client "A" "B" "C" example_world "T123" H).
Defined.

(** C9.  With an amount of zero, or any other falsy amount, [closeTrade]
    does exactly what it does without an amount: the request it signs and
    sends has no amount parameter. *)
Theorem closeTrade_falsy_amount (this : Node.client) (id key secret : string)
    (w : world Node.config) (tradeId : string) (amount : value) :
  truthy amount = false ->
  has_credentials this id key secret ->
  Node.closeTrade this tradeId amount w = Node.closeTrade this tradeId JUndefined w
  /\ Node.closeTrade this tradeId (JNum 0) w = Node.closeTrade this tradeId JUndefined w
  /\ requests (Node.closeTrade this tradeId amount) w "DELETE"
       (Node.web_api_address this +:+ "/api/v2/trade?type=Close&id=" +:+ tradeId).
Proof.
  intros Hfalsy H.
  assert (Node.closeTrade this tradeId amount = Node.closeTrade this tradeId JUndefined)
    as Hsame by (unfold Node.closeTrade; now rewrite Hfalsy).
  split; [now rewrite Hsame |]. split; [reflexivity |].
  rewrite Hsame. sent_as H.
Qed.

Lemma closeTrade_falsy_amount_witness :
  truthy (JNum 0) = false
  /\ has_credentials example_client "A" "B" "C"
  /\ Node.closeTrade example_client "T123" (JNum 0) example_world
     = Node.closeTrade example_client "T123" JUndefined example_world
  /\ requests (Node.closeTrade example_client "T123" (JNum 0)) example_world "DELETE"
       "http://x/api/v2/trade?type=Close&id=T123".
Proof.
  assert (has_credentials example_client "A" "B" "C") as H
    by (repeat split; discriminate).
  split; [reflexivity |]. split; [exact H |].
  destruct (closeTrade_falsy_amount example_client "A" "B" "C" example_world
              "T123" (JNum 0) eq_refl H) as (Hsame & _ & Hurl).
  split; [exact Hsame | exact Hurl].
Defined.

(** ** What signing leaves alone *)

(** C10.  Under complete credentials [_signRequest] returns a config with
    the method, the URL and the data of its argument; every header other
    than [Authorization] is as it was, present or not, and [Authorization]
    is set.  So the [Content-Type: application/json] that [createTrade],
    [modifyTrade] and the trade-history operations put on their config is on
    the request they send, next to the [Authorization] header, and the body
    they send is the request they were given. *)
Theorem signRequest_frame (c : Node.config) (id key secret : string)
    (w : world Node.config) (this : Node.client) (tradeId : string)
    (request : value) :
  has_credentials this id key secret ->
  (exists signed,
     Node._signRequest c (Some id) (Some key) (Some secret) w = (Returned signed, w)
     /\ Node.method signed = Node.method c
     /\ Node.url signed = Node.url c
     /\ Node.data signed = Node.data c
     /\ (forall name, name <> "Authorization" ->
           Node.header name signed = Node.header name c)
     /\ is_Some (Node.header "Authorization" signed))
  /\ (forall op,
        In op [Node.createTrade this request; Node.modifyTrade this request;
               Node.getTradeHistory this request;
               Node.getTradeHistoryByTradeId this tradeId request] ->
        exists r,
          sends op w r
          /\ Node.header "Content-Type" r = Some "application/json"
          /\ is_Some (Node.header "Authorization" r)
          /\ Node.data r = request).
Proof.
  intros H. split.
  - destruct H as (_ & _ & _ & Hid & Hkey & Hsecret).
    exists (authorized id key secret (clock w) c).
    split; [now apply signRequest_returns |].
    do 3 (split; [reflexivity |]). split.
    + intros name Hname. now apply authorized_other_header.
    + rewrite authorized_header. eauto.
  - intros op Hop. simpl in Hop.
    destruct Hop as [<- | [<- | [<- | [<- | []]]]];
      (eexists; split; [eapply signed_sends; exact H |]);
      (split; [rewrite authorized_other_header by discriminate; reflexivity |]);
      (split; [rewrite authorized_header; eauto | reflexivity]).
Qed.

Lemma signRequest_frame_witness :
  has_credentials example_client "A" "B" "C"
  /\ exists r,
      sends (Node.createTrade example_client example_trade) example_world r
      /\ Node.header "Content-Type" r = Some "application/json"
      /\ is_Some (Node.header "Authorization" r)
      /\ Node.data r = example_trade.
Proof.
  assert (has_credentials example_client "A" "B" "C") as H
    by (repeat split; discriminate).
  split; [exact H |].
  destruct (signRequest_frame
              (Node.Config "POST" "http://x/api/v2/trade" example_trade Node.json_headers)
              "A" "B" "C" example_world example_client "7001" example_trade)
    as [_ Hops]; [exact H |].
  apply Hops. left. reflexivity.
Defined.

(** ** Determinism *)

(** C8.  Under complete credentials, two runs of the signer at the same
    clock reading on configs with the same method, URL and body return the
    same [Authorization] header, whatever else the configs carry and
    whatever the transport has seen before. *)
Theorem signRequest_deterministic (c1 c2 : Node.config) (id key secret : string)
    (w1 w2 : world Node.config) :
  id <> EmptyString -> key <> EmptyString -> secret <> EmptyString ->
  Node.method c1 = Node.method c2 ->
  Node.url c1 = Node.url c2 ->
  Node.data c1 = Node.data c2 ->
  clock w1 = clock w2 ->
  exists s1 s2 value,
    Node._signRequest c1 (Some id) (Some key) (Some secret) w1 = (Returned s1, w1)
    /\ Node._signRequest c2 (Some id) (Some key) (Some secret) w2 = (Returned s2, w2)
    /\ Node.header "Authorization" s1 = Some value
    /\ Node.header "Authorization" s2 = Some value.
Proof.
  intros Hid Hkey Hsecret Hmethod Hurl Hdata Hclock.
  exists (authorized id key secret (clock w1) c1),
         (authorized id key secret (clock w2) c2).
  eexists. split; [now apply signRequest_returns |].
  split; [now apply signRequest_returns |].
  rewrite !authorized_header. split; [reflexivity |].
  congruence.
Qed.

Lemma signRequest_deterministic_witness :
  exists s1 s2 value,
    Node._signRequest
      (Node.Config "DELETE" "http://x/api/v2/trade?type=Cancel&id=T123" JUndefined None)
      (Some "A") (Some "B") (Some "C") example_world
    = (Returned s1, example_world)
    /\ Node._signRequest
         (Node.Config "DELETE" "http://x/api/v2/trade?type=Cancel&id=T123" JUndefined
            Node.json_headers)
         (Some "A") (Some "B") (Some "C")
         (World example_time
            [Node.Config "get" "http://x/api/v2/public/tick" JUndefined None])
       = (Returned s2,
          World example_time
            [Node.Config "get" "http://x/api/v2/public/tick" JUndefined None])
    /\ Node.header "Authorization" s1 = Some value
    /\ Node.header "Authorization" s2 = Some value.
Proof.
  apply signRequest_deterministic; first [discriminate | reflexivity].
Defined.

(** ** Known answers *)

(** FIPS 180-4 (the message abc and the empty message), and HMAC with a
    short and with an over-long key. *)
Example sha256_abc :
  Crypto.hex (Crypto.sha256 (Crypto.bytes_of_string "abc"))
  = "ba7816bf8f01cfea414140de5dae2223b00361a396177a9cb410ff61f20015ad".
Proof. vm_compute. reflexivity. Qed.

Example sha256_empty :
  Crypto.hex (Crypto.sha256 [])
  = "e3b0c44298fc1c149afbf4c8996fb92427ae41e4649b934ca495991b7852b855".
Proof. vm_compute. reflexivity. Qed.

Example hmac_short_key :
  Crypto.hmac_sha256_base64 "key" "The quick brown fox jumps over the lazy dog"
  = "97yD9DBThCSxMpjmqm+xQ+9NWaFJRhdZl0edvC0aPNg=".
Proof. vm_compute. reflexivity. Qed.

Example hmac_long_key :
  Crypto.hmac_sha256_base64
    (string_of_list_ascii (repeat "k"%char 100))
    (string_of_list_ascii (repeat "m"%char 200))
  = "prym9EghZ+7/rcBEmjRsIf/o+WF37O7K6xgrYQ9hKMg=".
Proof. vm_compute. reflexivity. Qed.

(** The end-to-end example: the market order is sent by POST to
    [http://x/api/v2/trade] as given, under this header. *)
Example end_to_end :
  exists r,
    sends (Node.createTrade example_client example_trade) example_world r
    /\ Node.method r = "POST"
    /\ Node.url r = "http://x/api/v2/trade"
    /\ Node.data r = example_trade
    /\ Node.header "Authorization" r
       = Some "HMAC A:B:1700000000000:7hQOvhGx7uS1daZqAuw231wtDExlfL42nJO8DvJM4Ck=".
Proof.
  eexists. split.
  - eapply (signed_sends example_client "A" "B" "C"). repeat split; discriminate.
  - do 3 (split; [reflexivity |]). rewrite authorized_header.
    vm_compute. reflexivity.
Qed.

(** [cancelTrade("T123")] sends a DELETE with no body to
    [{base}/api/v2/trade?type=Cancel&id=T123] under a signed header. *)
Example cancelTrade_T123 :
  exists r,
    sends (Node.cancelTrade example_client "T123") example_world r
    /\ Node.method r = "DELETE"
    /\ Node.url r = "http://x/api/v2/trade?type=Cancel&id=T123"
    /\ Node.data r = JUndefined
    /\ Node.header "Authorization" r
       = Some "HMAC A:B:1700000000000:BDbLHYzjdD5AdGH7grR+JUl/4w+cpHHdpa+v/YyeQBM=".
Proof.
  eexists. split.
  - eapply (signed_sends example_client "A" "B" "C"). repeat split; discriminate.
  - do 3 (split; [reflexivity |]). rewrite authorized_header.
    vm_compute. reflexivity.
Qed.

(** * Further properties of the two clients *)

(** ** Every private operation of the Node.js client *)

Lemma sends_functional {R} (m : js R unit) (w : world R) (r r' : R) :
  sends m w r -> sends m w r' -> r = r'.
Proof.
  unfold sends. intros H H'. rewrite H in H'.
  injection H' as H'. now apply app_inj_tail in H' as [_ ?].
Qed.





(** ** The public operations *)

(** X3.  A public operation never signs, whatever the credentials of the
    client, missing ones included: given, if it takes one, a symbol or
    currency that is well-formed text, it hands the transport one [get]
    request with no headers and no body. *)
Theorem public_operations_unsigned (this : Node.client)
    (op : Node.public_operation) (w : world Node.config) :
  well_formed (public_parameter op) = true ->
  exists r,
    sends (Node.invoke_public this op) w r
    /\ Node.method r = "get"
    /\ Node.data r = JUndefined
    /\ Node.headers r = None
    /\ Node.header "Authorization" r = None.
Proof.
  intros _. destruct op; eexists; (split; [reflexivity |]); repeat split.
Qed.

Lemma public_operations_unsigned_witness :
  well_formed (public_parameter (Node.GetPublicSymbol "EUR/USD")) = true
  /\ exists r,
      sends (Node.invoke_public (Node.Client "http://x" None None None)
               (Node.GetPublicSymbol "EUR/USD")) example_world r
      /\ Node.method r = "get"
      /\ Node.data r = JUndefined
      /\ Node.headers r = None
      /\ Node.header "Authorization" r = None.
Proof.
  split; [reflexivity |].
  exact (public_operations_unsigned (Node.Client "http://x" None None None)
           (Node.GetPublicSymbol "EUR/USD") example_world eq_refl).
Defined.

(** X13.  Nor does a public operation of the browser client run the
    signer: given, if it takes one, a symbol or currency that is
    well-formed text, it asks for one GET with no body and no content type
    from the settings, [beforeSend] is absent, and the client writes no
    [Authorization] header on the request. *)
Theorem browser_public_operations_unsigned (this : Browser.client)
    (op : Node.public_operation) (w : world Browser.sent) :
  well_formed (public_parameter op) = true ->
  exists r,
    sends (Browser.invoke_public this op) w r
    /\ Browser.sent_type r = "GET"
    /\ Browser.sent_data r = None
    /\ Browser.sent_contentType r = None
    /\ Browser.sent_headers r !! "Authorization" = None.
Proof.
  intros _. destruct op; eexists; (split; [reflexivity |]); repeat split.
Qed.

Lemma browser_public_operations_unsigned_witness :
  well_formed (public_parameter (Node.GetPublicTick "EURUSD")) = true
  /\ exists r,
      sends (Browser.invoke_public (Browser.Client "http://x" None None None)
               (Node.GetPublicTick "EURUSD")) (World example_time []) r
      /\ Browser.sent_type r = "GET"
      /\ Browser.sent_data r = None
      /\ Browser.sent_contentType r = None
      /\ Browser.sent_headers r !! "Authorization" = None.
Proof.
  split; [reflexivity |].
  exact (browser_public_operations_unsigned (Browser.Client "http://x" None None None)
           (Node.GetPublicTick "EURUSD") (World example_time []) eq_refl).
Defined.

(** ** The credential checks *)

(** X4.  [_signRequest] checks the id, then the key, then the secret, and
    the first one that is missing or empty decides the message of the
    error. *)
Theorem credential_error_messages (c : Node.config) (id key secret : arg)
    (w : world Node.config) :
  (Spec.missing id ->
     Node._signRequest c id key secret w
     = (Thrown "TickTrader Web API Id should be valid!", w))
  /\ (~ Spec.missing id -> Spec.missing key ->
      Node._signRequest c id key secret w
      = (Thrown "TickTrader Web API Key should be valid!", w))
  /\ (~ Spec.missing id -> ~ Spec.missing key -> Spec.missing secret ->
      Node._signRequest c id key secret w
      = (Thrown "TickTrader Web API Secret should be valid!", w)).
Proof.
  assert (forall a, ~ Spec.missing a -> truthy a = true) as Hgiven.
  { intros a Ha. destruct (truthy a) eqn:E; [reflexivity |].
    destruct Ha. now apply missing_falsy. }
  unfold Node._signRequest. repeat split.
  - intros Hid. apply missing_falsy in Hid. now rewrite Hid.
  - intros Hid Hkey. apply Hgiven in Hid. apply missing_falsy in Hkey.
    now rewrite Hid, Hkey.
  - intros Hid Hkey Hsecret. apply Hgiven in Hid. apply Hgiven in Hkey.
    apply missing_falsy in Hsecret. now rewrite Hid, Hkey, Hsecret.
Qed.

Lemma credential_error_messages_witness :
  Spec.missing None
  /\ Node._signRequest (Node.Config "GET" "http://x/api/v2/account" JUndefined None)
       None None None example_world
     = (Thrown "TickTrader Web API Id should be valid!", example_world)
  /\ ~ Spec.missing (Some "A") /\ Spec.missing (Some EmptyString)
  /\ Node._signRequest (Node.Config "GET" "http://x/api/v2/account" JUndefined None)
       (Some "A") (Some EmptyString) None example_world
     = (Thrown "TickTrader Web API Key should be valid!", example_world).
Proof.
  assert (Spec.missing None) as Hnone by (left; reflexivity).
  assert (~ Spec.missing (Some "A")) as HA by (intros [H | H]; discriminate H).
  assert (Spec.missing (Some EmptyString)) as Hempty by (right; reflexivity).
  split; [exact Hnone |]. split.
  - exact (proj1 (credential_error_messages
                    (Node.Config "GET" "http://x/api/v2/account" JUndefined None)
                    None None None example_world) Hnone).
  - split; [exact HA |]. split; [exact Hempty |].
    exact (proj1 (proj2 (credential_error_messages
                           (Node.Config "GET" "http://x/api/v2/account" JUndefined None)
                           (Some "A") (Some EmptyString) None example_world))
             HA Hempty).
Defined.

(** X5.  The constructor checks the address and nothing else: given a
    non-empty address it returns a client holding the four arguments, also
    when credentials are missing.  Such a client serves every public
    operation given well-formed text, and refuses every private operation
    when it is called, before anything is sent.  Given an empty address the
    constructor throws. *)
Theorem constructor_checks_address_only (address : string) (id key secret : arg) :
  (address = EmptyString ->
     Node.TickTraderWebClient address id key secret
     = Thrown "TickTrader Web API address should be valid!")
  /\ (address <> EmptyString ->
      Node.TickTraderWebClient address id key secret
      = Returned (Node.Client address id key secret))
  /\ (address <> EmptyString -> Spec.incomplete id key secret ->
      exists this,
        Node.TickTraderWebClient address id key secret = Returned this
        /\ (forall op w, well_formed (public_parameter op) = true ->
                         exists r, sends (Node.invoke_public this op) w r)
        /\ (forall op w, throws_unsent (Node.invoke this op) w)).
Proof.
  assert (address <> EmptyString ->
          Node.TickTraderWebClient address id key secret
          = Returned (Node.Client address id key secret)) as Hok.
  { intros Ha. unfold Node.TickTraderWebClient.
    destruct address; [contradiction | reflexivity]. }
  split; [now intros -> |]. split; [exact Hok |].
  intros Ha Hbad. eexists. split; [now apply Hok |]. split.
  - intros op w _. destruct op; eexists; reflexivity.
  - intros op w.
    destruct (invoke_signed (Node.Client address id key secret) op) as [c ->].
    destruct (signRequest_throws c id key secret w Hbad) as [message Hthrow].
    exists message. unfold Node.signed, bind. simpl. now rewrite Hthrow.
Qed.

Lemma constructor_checks_address_only_witness :
  "http://x" <> EmptyString /\ Spec.incomplete (Some "A") None (Some "C")
  /\ exists this,
      Node.TickTraderWebClient "http://x" (Some "A") None (Some "C") = Returned this
      /\ (forall op w, well_formed (public_parameter op) = true ->
                       exists r, sends (Node.invoke_public this op) w r)
      /\ (forall op w, throws_unsent (Node.invoke this op) w).
Proof.
  assert (Spec.incomplete (Some "A") None (Some "C")) as Hbad
    by (right; left; left; reflexivity).
  split; [discriminate |]. split; [exact Hbad |].
  apply (constructor_checks_address_only "http://x" (Some "A") None (Some "C"));
    [discriminate | exact Hbad].
Defined.

(** ** Letter case of the method *)

Lemma upper_char_idempotent (c : ascii) : upper_char (upper_char c) = upper_char c.
Proof. destruct c as [[] [] [] [] [] [] [] []]; reflexivity. Qed.

Lemma toUpperCase_idempotent (s : string) :
  toUpperCase (toUpperCase s) = toUpperCase s.
Proof.
  induction s as [|c s IH]; [reflexivity |].
  cbn [toUpperCase]. now rewrite upper_char_idempotent, IH.
Qed.

(** X6.  The signer folds the letter case of the method: two configs whose
    methods agree up to ASCII letter case, with the same URL and body, get
    the same [Authorization] header at the same time; in particular a
    config and the same config with its method uppercased do. *)
Theorem method_case_is_folded (c1 c2 : Node.config) (id key secret : string)
    (w : world Node.config) :
  id <> EmptyString -> key <> EmptyString -> secret <> EmptyString ->
  toUpperCase (Node.method c1) = toUpperCase (Node.method c2) ->
  Node.url c1 = Node.url c2 ->
  Node.data c1 = Node.data c2 ->
  exists s1 s2 s3 value,
    Node._signRequest c1 (Some id) (Some key) (Some secret) w = (Returned s1, w)
    /\ Node._signRequest c2 (Some id) (Some key) (Some secret) w = (Returned s2, w)
    /\ Node._signRequest
         (Node.Config (toUpperCase (Node.method c1)) (Node.url c1) (Node.data c1)
            (Node.headers c1))
         (Some id) (Some key) (Some secret) w
       = (Returned s3, w)
    /\ Node.header "Authorization" s1 = Some value
    /\ Node.header "Authorization" s2 = Some value
    /\ Node.header "Authorization" s3 = Some value.
Proof.
  intros Hid Hkey Hsecret Hmethod Hurl Hdata.
  do 3 eexists. eexists.
  do 3 (split; [now apply signRequest_returns |]).
  rewrite !authorized_header. unfold Spec.authorization, Spec.canonical. simpl.
  rewrite toUpperCase_idempotent, <- Hmethod, <- Hurl, <- Hdata.
  repeat split.
Qed.

Lemma method_case_is_folded_witness :
  exists s1 s2 s3 value,
    Node._signRequest (Node.Config "delete" "http://x/api/v2/trade?type=Cancel&id=1"
                         JUndefined None)
      (Some "A") (Some "B") (Some "C") example_world
    = (Returned s1, example_world)
    /\ Node._signRequest (Node.Config "Delete" "http://x/api/v2/trade?type=Cancel&id=1"
                            JUndefined Node.json_headers)
         (Some "A") (Some "B") (Some "C") example_world
       = (Returned s2, example_world)
    /\ Node._signRequest (Node.Config "DELETE" "http://x/api/v2/trade?type=Cancel&id=1"
                            JUndefined None)
         (Some "A") (Some "B") (Some "C") example_world
       = (Returned s3, example_world)
    /\ Node.header "Authorization" s1 = Some value
    /\ Node.header "Authorization" s2 = Some value
    /\ Node.header "Authorization" s3 = Some value.
Proof.
  apply (method_case_is_folded
           (Node.Config "delete" "http://x/api/v2/trade?type=Cancel&id=1" JUndefined None)
           (Node.Config "Delete" "http://x/api/v2/trade?type=Cancel&id=1" JUndefined
              Node.json_headers));
    first [discriminate | reflexivity].
Defined.

(** ** Percent-encoding of symbols and currencies *)

Lemma chars_cons (c : ascii) (s : string) : chars (String c s) = c :: chars s.
Proof. reflexivity. Qed.

Lemma hex_upper_unreserved (c : ascii) :
  uri_unreserved (hex_upper (nat_of_ascii c / 16)) = true
  /\ uri_unreserved (hex_upper (nat_of_ascii c mod 16)) = true.
Proof. destruct c as [[] [] [] [] [] [] [] []]; split; reflexivity. Qed.

Lemma hex_pair_injective (c1 c2 : ascii) :
  hex_upper (nat_of_ascii c1 / 16) = hex_upper (nat_of_ascii c2 / 16) ->
  hex_upper (nat_of_ascii c1 mod 16) = hex_upper (nat_of_ascii c2 mod 16) ->
  c1 = c2.
Proof.
  assert (forall i j, (i < 16)%nat -> (j < 16)%nat ->
                      hex_upper i = hex_upper j -> i = j) as Hinj.
  { intros i j Hi Hj.
    do 16 (destruct i as [|i]; [do 16 (destruct j as [|j]; [vm_compute; congruence |]); lia |]).
    lia. }
  intros Hhigh Hlow.
  pose proof (nat_ascii_bounded c1) as B1. pose proof (nat_ascii_bounded c2) as B2.
  apply Hinj in Hhigh;
    [| apply Nat.Div0.div_lt_upper_bound; lia | apply Nat.Div0.div_lt_upper_bound; lia].
  apply Hinj in Hlow; [| apply Nat.mod_upper_bound; lia | apply Nat.mod_upper_bound; lia].
  rewrite <- (ascii_nat_embedding c1), <- (ascii_nat_embedding c2). f_equal.
  rewrite (Nat.div_mod_eq (nat_of_ascii c1) 16), (Nat.div_mod_eq (nat_of_ascii c2) 16).
  now rewrite Hhigh, Hlow.
Qed.

Lemma encode_cons (c : ascii) (s : string) :
  encodeURIComponent (String c s)
  = if uri_unreserved c then String c (encodeURIComponent s)
    else String "%" (String (hex_upper (nat_of_ascii c / 16))
           (String (hex_upper (nat_of_ascii c mod 16)) (encodeURIComponent s))).
Proof. reflexivity. Qed.

Lemma encode_safe (s : string) :
  Forall (fun c => uri_unreserved c = true \/ c = "%"%char)
    (chars (encodeURIComponent s)).
Proof.
  induction s as [|c s IH]; [constructor |].
  rewrite encode_cons. destruct (uri_unreserved c) eqn:Hc.
  - rewrite chars_cons. constructor; [now left | exact IH].
  - destruct (hex_upper_unreserved c) as [Hhigh Hlow].
    rewrite !chars_cons.
    constructor; [now right |]. constructor; [now left |].
    constructor; [now left | exact IH].
Qed.

Lemma encode_injective (s1 s2 : string) :
  encodeURIComponent s1 = encodeURIComponent s2 -> s1 = s2.
Proof.
  revert s2. induction s1 as [|c1 s1 IH]; intros [|c2 s2] H.
  - reflexivity.
  - rewrite encode_cons in H. destruct (uri_unreserved c2); discriminate H.
  - rewrite encode_cons in H. destruct (uri_unreserved c1); discriminate H.
  - rewrite !encode_cons in H.
    destruct (uri_unreserved c1) eqn:H1, (uri_unreserved c2) eqn:H2.
    + injection H as -> H. f_equal. now apply IH.
    + injection H as -> _. discriminate H1.
    + injection H as <- _. discriminate H2.
    + injection H as Hhigh Hlow H.
      rewrite (hex_pair_injective c1 c2 Hhigh Hlow). f_equal. now apply IH.
Qed.

Lemma encode_unreserved (s : string) :
  Forall (fun c => uri_unreserved c = true) (chars s) -> encodeURIComponent s = s.
Proof.
  induction s as [|c s IH]; [reflexivity |].
  rewrite chars_cons, encode_cons. intros H. inversion H as [|? ? Hc Hs]; subst.
  rewrite Hc. f_equal. now apply IH.
Qed.

(** The request a symbol operation sends. *)
Lemma symbol_operation_url (this : Node.client) (id key secret : string)
    (w : world Node.config) (f : string -> js Node.config unit) (path p u : string) :
  symbol_operation this id key secret f path ->
  asks_for (f p) w u
  <-> u = Node.web_api_address this +:+ path +:+ encodeURIComponent p.
Proof.
  intros Hop.
  assert (asks_for (f p) w
            (Node.web_api_address this +:+ path +:+ encodeURIComponent p)) as Hasks.
  { destruct Hop as [Hin | [H Hin]]; simpl in Hin;
      repeat (destruct Hin as [Hin | Hin];
              [injection Hin as <- <-; eexists; split;
               [first [reflexivity | eapply signed_sends; exact H] | reflexivity] |]);
      destruct Hin. }
  split.
  - intros (r & Hr & <-). destruct Hasks as (r' & Hr' & <-).
    now rewrite (sends_functional _ _ _ _ Hr Hr').
  - now intros ->.
Qed.

(** X7.  The symbol name or currency code an operation is given, a
    well-formed text, reaches the URL only as letters, digits,
    [- _ . ! ~ * ' ( )] and percent escapes: it adds no slash, question
    mark, hash, ampersand, equals sign or space to the URL.  This holds of
    the public operations whatever the credentials, and of the private ones
    under complete credentials. *)
Theorem symbol_segment_is_escaped (this : Node.client) (id key secret : string)
    (w : world Node.config) (f : string -> js Node.config unit) (path p : string) :
  symbol_operation this id key secret f path ->
  well_formed p = true ->
  exists segment,
    asks_for (f p) w (Node.web_api_address this +:+ path +:+ segment)
    /\ Forall (fun c => uri_unreserved c = true \/ c = "%"%char) (chars segment)
    /\ forall c, In c (chars "/?#&= ") -> ~ In c (chars segment).
Proof.
  intros Hop _. exists (encodeURIComponent p).
  split; [now apply (symbol_operation_url this id key secret w f path p) |].
  split; [apply encode_safe |].
  intros c Hc Hseg.
  pose proof (encode_safe p) as Hsafe. rewrite Forall_forall in Hsafe.
  apply list_elem_of_In in Hseg. specialize (Hsafe c Hseg).
  simpl in Hc.
  destruct Hc as [<- | [<- | [<- | [<- | [<- | [<- | []]]]]]];
    destruct Hsafe as [Hs | Hs]; discriminate Hs.
Qed.

Lemma symbol_segment_is_escaped_witness :
  symbol_operation (Node.Client "http://x" None None None) "A" "B" "C"
    (Node.getPublicSymbol (Node.Client "http://x" None None None))
    "/api/v2/public/symbol/"
  /\ well_formed "EUR/USD?x=1" = true
  /\ exists segment,
      asks_for (Node.getPublicSymbol (Node.Client "http://x" None None None)
                  "EUR/USD?x=1") example_world
        ("http://x" +:+ "/api/v2/public/symbol/" +:+ segment)
      /\ Forall (fun c => uri_unreserved c = true \/ c = "%"%char) (chars segment)
      /\ forall c, In c (chars "/?#&= ") -> ~ In c (chars segment).
Proof.
  assert (symbol_operation (Node.Client "http://x" None None None) "A" "B" "C"
            (Node.getPublicSymbol (Node.Client "http://x" None None None))
            "/api/v2/public/symbol/") as Hop
    by (left; simpl; right; left; reflexivity).
  split; [exact Hop |]. split; [reflexivity |].
  exact (symbol_segment_is_escaped (Node.Client "http://x" None None None)
           "A" "B" "C" example_world _ _ "EUR/USD?x=1" Hop eq_refl).
Defined.

(** X8.  Different symbols are asked for at different URLs: a symbol
    operation given two different well-formed texts sends to two different
    URLs. *)
Theorem symbol_urls_are_distinct (this : Node.client) (id key secret : string)
    (w : world Node.config) (f : string -> js Node.config unit)
    (path p1 p2 u1 u2 : string) :
  symbol_operation this id key secret f path ->
  well_formed p1 = true -> well_formed p2 = true ->
  p1 <> p2 ->
  asks_for (f p1) w u1 -> asks_for (f p2) w u2 -> u1 <> u2.
Proof.
  intros Hop _ _ Hdiff H1 H2 Heq.
  apply (symbol_operation_url this id key secret w f path p1 u1 Hop) in H1.
  apply (symbol_operation_url this id key secret w f path p2 u2 Hop) in H2.
  rewrite H1, H2 in Heq. do 2 apply append_inv_head in Heq.
  now apply encode_injective in Heq.
Qed.

Lemma symbol_urls_are_distinct_witness :
  symbol_operation example_client "A" "B" "C" (Node.getSymbol example_client)
    "/api/v2/symbol/"
  /\ "EUR/USD" <> "EUR%2FUSD"
  /\ asks_for (Node.getSymbol example_client "EUR/USD") example_world
       "http://x/api/v2/symbol/EUR%2FUSD"
  /\ asks_for (Node.getSymbol example_client "EUR%2FUSD") example_world
       "http://x/api/v2/symbol/EUR%252FUSD"
  /\ "http://x/api/v2/symbol/EUR%2FUSD" <> "http://x/api/v2/symbol/EUR%252FUSD".
Proof.
  assert (has_credentials example_client "A" "B" "C") as H
    by (repeat split; discriminate).
  assert (symbol_operation example_client "A" "B" "C" (Node.getSymbol example_client)
            "/api/v2/symbol/") as Hop
    by (right; split; [exact H | simpl; right; left; reflexivity]).
  assert ("EUR/USD" <> "EUR%2FUSD") as Hdiff by discriminate.
  assert (asks_for (Node.getSymbol example_client "EUR/USD") example_world
            "http://x/api/v2/symbol/EUR%2FUSD") as H1.
  { eexists. split; [eapply signed_sends; exact H | reflexivity]. }
  assert (asks_for (Node.getSymbol example_client "EUR%2FUSD") example_world
            "http://x/api/v2/symbol/EUR%252FUSD") as H2.
  { eexists. split; [eapply signed_sends; exact H | reflexivity]. }
  split; [exact Hop |]. split; [exact Hdiff |]. split; [exact H1 |].
  split; [exact H2 |].
  exact (symbol_urls_are_distinct example_client "A" "B" "C" example_world
           _ _ "EUR/USD" "EUR%2FUSD" _ _ Hop eq_refl eq_refl Hdiff H1 H2).
Defined.

(** X9.  A symbol or currency made of letters, digits and
    [- _ . ! ~ * ' ( )] only is appended to the path as it is: by the
    public operations whatever the credentials, by the private ones under
    complete credentials. *)
Theorem plain_symbols_pass_unchanged (this : Node.client) (id key secret : string)
    (w : world Node.config) (f : string -> js Node.config unit) (path p : string) :
  symbol_operation this id key secret f path ->
  Forall (fun c => uri_unreserved c = true) (chars p) ->
  asks_for (f p) w (Node.web_api_address this +:+ path +:+ p).
Proof.
  intros Hop Hplain.
  apply (symbol_operation_url this id key secret w f path p _ Hop).
  now rewrite encode_unreserved.
Qed.

Lemma plain_symbols_pass_unchanged_witness :
  symbol_operation (Node.Client "http://x" None None None) "A" "B" "C"
    (Node.getPublicTick (Node.Client "http://x" None None None))
    "/api/v2/public/tick/"
  /\ Forall (fun c => uri_unreserved c = true) (chars "EURUSD")
  /\ asks_for (Node.getPublicTick (Node.Client "http://x" None None None) "EURUSD")
       example_world ("http://x" +:+ "/api/v2/public/tick/" +:+ "EURUSD").
Proof.
  assert (symbol_operation (Node.Client "http://x" None None None) "A" "B" "C"
            (Node.getPublicTick (Node.Client "http://x" None None None))
            "/api/v2/public/tick/") as Hop
    by (left; simpl; do 2 right; left; reflexivity).
  assert (Forall (fun c => uri_unreserved c = true) (chars "EURUSD")) as Hplain
    by (repeat constructor).
  split; [exact Hop |]. split; [exact Hplain |].
  exact (plain_symbols_pass_unchanged (Node.Client "http://x" None None None)
           "A" "B" "C" example_world _ _ "EURUSD" Hop Hplain).
Defined.

(** ** Trade identifiers are spliced as given *)

(** X10.  [closeTrade] cannot tell an amount from text appended to the
    trade identifier: closing [tradeId] with a truthy [amount] runs exactly
    as closing, with no amount, the identifier [tradeId&amount=amount]; the
    two calls sign and send the same request. *)
Theorem closeTrade_amount_in_identifier (this : Node.client) (tradeId : string)
    (amount : value) (w : world Node.config) :
  truthy amount = true ->
  Node.closeTrade this (tradeId +:+ "&amount=" +:+ to_string amount) JUndefined w
  = Node.closeTrade this tradeId amount w.
Proof. intros Hamount. unfold Node.closeTrade. now rewrite Hamount. Qed.

Lemma closeTrade_amount_in_identifier_witness :
  truthy (JNum 5) = true
  /\ Node.closeTrade example_client "T123&amount=5" JUndefined example_world
     = Node.closeTrade example_client "T123" (JNum 5) example_world.
Proof.
  split; [reflexivity |].
  exact (closeTrade_amount_in_identifier example_client "T123" (JNum 5)
           example_world eq_refl).
Defined.

(** ** The browser client *)

Lemma browser_authAjax_no_body (this : Browser.client) (id key secret : string)
    (url : string) (type : arg) (data : value) (w : world Browser.sent) :
  Browser.web_api_id this = Some id -> Browser.web_api_key this = Some key ->
  Browser.web_api_secret this = Some secret ->
  id <> EmptyString -> key <> EmptyString -> secret <> EmptyString ->
  truthy data = false ->
  toUpperCase (default "GET" type) = default "GET" type ->
  sends (Browser._authAjax this url type data) w
    (Browser.Sent url (default "GET" type) None None
       (<[ "Authorization" :=
             Spec.authorization id key secret (clock w) (default "GET" type) url
               EmptyString ]> ∅)).
Proof.
  intros Hi Hk Hs Hid Hkey Hsecret Hdata Htype.
  assert (truthy (match data with JUndefined => JNull | _ => data end) = false)
    as Hdata' by (destruct data; first [exact Hdata | reflexivity]).
  unfold sends, Browser._authAjax, Browser.ajax, bind, Browser.signRequest,
    Browser.signature.
  cbn [Browser.s_beforeSend Browser.s_url Browser.s_type Browser.s_data
       Browser.s_contentType Browser.type Browser.url Browser.data].
  rewrite Hdata', Hi, Hk, Hs.
  rewrite (truthy_given id Hid), (truthy_given key Hkey), (truthy_given secret Hsecret).
  cbn [negb orb]. unfold Date_now, ret, transmit, Browser.setRequestHeader.
  unfold Spec.authorization, Spec.canonical. rewrite Htype. reflexivity.
Qed.

Lemma browser_closeTrade_url (this : Browser.client) (tradeId : string) (amount : value) :
  Browser.closeTrade this tradeId amount
  = Browser._authAjax this
      (if truthy amount then
         Browser.web_api_address this +:+ "/api/v2/trade?type=Close&id=" +:+ tradeId
         +:+ "&amount=" +:+ to_string amount
       else Browser.web_api_address this +:+ "/api/v2/trade?type=Close&id=" +:+ tradeId)
      (Some "DELETE") JUndefined.
Proof.
  unfold Browser.closeTrade.
  destruct amount as [| |[|]| n | s | |]; cbn [truthy truthy_value];
    rewrite ?append_nil_r, ?append_assoc; try reflexivity.
  - destruct (negb (n =? 0)%Z); now rewrite ?append_nil_r, ?append_assoc.
  - destruct (truthy s); now rewrite ?append_nil_r, ?append_assoc.
Qed.



(** X12.  For every object given as the request to [createTrade],
    [modifyTrade], [getTradeHistory] or [getTradeHistoryByTradeId], an empty
    object included, provided the object has no own [toString] property,
    the browser client asks for a POST or a PUT with the JSON text of the
    object as data and the JSON content type, under a signature taken over
    the text [[object Object]], which is never the text sent. *)
Theorem browser_object_body_is_not_signed (this : Browser.client)
    (id key secret : string) (op : Node.operation)
    (properties : list (string * value)) (w : world Browser.sent) :
  Browser.web_api_id this = Some id -> Browser.web_api_key this = Some key ->
  Browser.web_api_secret this = Some secret ->
  id <> EmptyString -> key <> EmptyString -> secret <> EmptyString ->
  Node.carries_body op = true ->
  Node.body_of op = JObj properties ->
  converts (JObj properties) = true ->
  exists r text,
    sends (Browser.invoke this op) w r
    /\ In (Browser.sent_type r) ["POST"; "PUT"]
    /\ JSON_stringify (JObj properties) = Some text
    /\ Browser.sent_data r = Some text
    /\ Browser.sent_contentType r = Some "application/json; charset=UTF-8"
    /\ Browser.sent_headers r !! "Authorization"
       = Some (Spec.header id key (clock w)
                 (Crypto.hmac_sha256_base64 secret
                    (decimal (clock w) +:+ id +:+ key +:+ Browser.sent_type r
                     +:+ Browser.sent_url r +:+ "[object Object]")))
    /\ text <> "[object Object]".
Proof.
  intros Hi Hk Hs Hid Hkey Hsecret Hcarries Hbody _.
  destruct (JSON_stringify (JObj properties)) as [text|] eqn:Htext;
    [| discriminate Htext].
  assert (text <> "[object Object]") as Hdiffers.
  { cbn [JSON_stringify] in Htext. injection Htext as <-.
    rewrite append_cons. discriminate. }
  destruct op; try discriminate Hcarries; cbn [Node.body_of] in Hbody; subst;
    (eexists; exists text;
     split; [now apply (browser_object_body this id key secret) |];
     split; [simpl; tauto |];
     split; [reflexivity |]; split; [exact Htext |]; split; [reflexivity |];
     split; [apply lookup_singleton_eq | exact Hdiffers]).
Qed.

Lemma browser_object_body_is_not_signed_witness :
  exists r text,
    sends (Browser.invoke example_browser_client (Node.ModifyTrade (JObj [])))
      (World example_time []) r
    /\ In (Browser.sent_type r) ["POST"; "PUT"]
    /\ JSON_stringify (JObj []) = Some text
    /\ Browser.sent_data r = Some text
    /\ Browser.sent_contentType r = Some "application/json; charset=UTF-8"
    /\ Browser.sent_headers r !! "Authorization"
       = Some (Spec.header "A" "B" example_time
                 (Crypto.hmac_sha256_base64 "C"
                    (decimal example_time +:+ "A" +:+ "B" +:+ Browser.sent_type r
                     +:+ Browser.sent_url r +:+ "[object Object]")))
    /\ text <> "[object Object]".
Proof.
  apply (browser_object_body_is_not_signed example_browser_client "A" "B" "C"
           (Node.ModifyTrade (JObj [])) []);
    first [reflexivity | discriminate].
Defined.

(** * The push-notification client *)

Section SocketFacts.

Context {handler : Type} (P : Socket.platform handler).

Local Abbreviation state := (Socket.state handler).

Lemma decimal_injective (a b : Z) : decimal a = decimal b -> a = b.
Proof.
  unfold decimal. intros H.
  apply (f_equal NilEmpty.int_of_string) in H. rewrite !NilEmpty.isi in H.
  injection H as H. now apply DecimalZ.to_int_inj.
Qed.

Lemma sendMessage_keeps (message : value) (s : state) :
  Socket._callbacks (Socket._sendMessage P message s) = Socket._callbacks s
  /\ Socket._nextCallbackId (Socket._sendMessage P message s) = Socket._nextCallbackId s
  /\ Socket._ws (Socket._sendMessage P message s) = Socket._ws s
  /\ Socket.calls (Socket._sendMessage P message s) = Socket.calls s.
Proof.
  unfold Socket._sendMessage.
  destruct (if Socket.has_WebSocket P then Socket._ws s else None) as [i|];
    [| now repeat split].
  destruct (Socket.sockets s !! i) as [ws|]; [| now repeat split].
  destruct (Socket.readyState ws =? Socket.OPEN)%Z; now repeat split.
Qed.

Lemma sendRequest_registers (method params : value) (callback : option handler)
    (s : state) :
  Socket._callbacks (Socket.sendRequest P method params callback s)
  = registered (fst (Socket._generateCallbackId s)) callback (Socket._callbacks s)
  /\ Socket._nextCallbackId (Socket.sendRequest P method params callback s)
     = (Socket._nextCallbackId s + 1)%Z
  /\ Socket._ws (Socket.sendRequest P method params callback s) = Socket._ws s
  /\ Socket.calls (Socket.sendRequest P method params callback s) = Socket.calls s.
Proof.
  unfold Socket.sendRequest. cbn [Socket._generateCallbackId].
  match goal with
  | |- context [Socket._sendMessage P ?m ?s'] =>
      destruct (sendMessage_keeps m s') as (-> & -> & -> & ->)
  end.
  destruct callback; now repeat split.
Qed.

Lemma onmessage_counter (onMessage : option handler) (data : value) (s : state) :
  Socket._nextCallbackId (snd (Socket.onmessage P onMessage data s))
  = Socket._nextCallbackId s.
Proof.
  unfold Socket.onmessage, Socket.call.
  destruct (Socket.callbackId_of data) as [id|]; [| reflexivity].
  destruct (truthy id).
  - destruct (Socket._callbacks s !! to_string id) as [h|].
    + destruct (Socket.returns P h data); reflexivity.
    + destruct (Socket.inherited (to_string id)).
      * reflexivity.
      * destruct onMessage; reflexivity.
  - destruct onMessage; reflexivity.
Qed.

Lemma notify_keeps (h : option handler) (type : string) (s : state) :
  Socket._callbacks (Socket.notify h type s) = Socket._callbacks s
  /\ Socket._nextCallbackId (Socket.notify h type s) = Socket._nextCallbackId s
  /\ Socket._ws (Socket.notify h type s) = Socket._ws s
  /\ Socket.sockets (Socket.notify h type s) = Socket.sockets s
  /\ Socket.warnings (Socket.notify h type s) = Socket.warnings s.
Proof. destruct h; now repeat split. Qed.

Lemma step_counter (s : state) (a : Socket.action handler) :
  Socket._nextCallbackId (snd (Socket.step P s a))
  = (Socket._nextCallbackId s + if is_connection a then 0
                                else match a with
                                     | Socket.SendRequest _ _ _ => 1
                                     | _ => 0
                                     end)%Z.
Proof.
  destruct a as [url o1 o2 o3 o4 | | method params callback | i | i | i | i parsed];
    cbn [Socket.step is_connection snd].
  - unfold Socket.connect.
    destruct (Socket.has_WebSocket P); [| simpl; lia].
    destruct (Socket.accepts P url); simpl; lia.
  - unfold Socket.disconnect. destruct (Socket._ws s); simpl; lia.
  - now destruct (sendRequest_registers method params callback s) as (_ & -> & _).
  - match goal with
    | |- context [Socket.notify ?h ?t ?s'] =>
        destruct (notify_keeps h t s') as (_ & -> & _)
    end. simpl. lia.
  - match goal with
    | |- context [Socket.notify ?h ?t ?s'] =>
        destruct (notify_keeps h t s') as (_ & -> & _)
    end. simpl. lia.
  - match goal with
    | |- context [Socket.notify ?h ?t ?s'] =>
        destruct (notify_keeps h t s') as (_ & -> & _)
    end. lia.
  - destruct (Socket.sockets s !! i) as [ws|]; [| simpl; lia].
    destruct parsed as [data|]; [| simpl; lia].
    rewrite onmessage_counter. lia.
Qed.

Lemma run_counter (actions : list (Socket.action handler)) (s : state) :
  (Socket._nextCallbackId s <= Socket._nextCallbackId (Socket.run P s actions))%Z.
Proof.
  revert s. induction actions as [|a actions IH]; intros s; [simpl; lia |].
  cbn [Socket.run]. specialize (IH (snd (Socket.step P s a))).
  rewrite step_counter in IH. destruct a; cbn [is_connection] in IH; lia.
Qed.

(** X14.  No two calls of [sendRequest] take the same callback identifier,
    whatever happens between them (replies, [disconnect], a new [connect]),
    as long as the counter is an integer JavaScript counts exactly. *)
Theorem callback_ids_never_repeat (s : state)
    (before between : list (Socket.action handler))
    (method params : value) (callback : option handler) :
  exact (Socket._nextCallbackId
           (Socket.run P
              (snd (Socket.step P (Socket.run P s before)
                      (Socket.SendRequest method params callback)))
              between)) ->
  fst (Socket._generateCallbackId (Socket.run P s before))
  <> fst (Socket._generateCallbackId
            (Socket.run P
               (snd (Socket.step P (Socket.run P s before)
                       (Socket.SendRequest method params callback)))
               between)).
Proof.
  intros _. cbn [Socket._generateCallbackId fst].
  intros H. apply append_inv_head in H. apply decimal_injective in H.
  pose proof (run_counter between
                (snd (Socket.step P (Socket.run P s before)
                        (Socket.SendRequest method params callback)))) as Hle.
  rewrite step_counter in Hle. cbn [is_connection] in Hle. lia.
Qed.

Lemma callbackId_not_inherited (n : Z) : Socket.inherited ("cb" +:+ decimal n) = false.
Proof. reflexivity. Qed.

Lemma step_connection_keeps (s : state) (a : Socket.action handler) :
  is_connection a = true ->
  Socket._callbacks (snd (Socket.step P s a)) = Socket._callbacks s
  /\ Socket._nextCallbackId (snd (Socket.step P s a)) = Socket._nextCallbackId s
  /\ Socket.warnings (snd (Socket.step P s a)) = Socket.warnings s.
Proof.
  destruct a as [url o1 o2 o3 o4 | | method params callback | i | i | i | i parsed];
    try discriminate; intros _; cbn [Socket.step snd].
  - unfold Socket.connect.
    destruct (Socket.has_WebSocket P); [| now repeat split].
    destruct (Socket.accepts P url); now repeat split.
  - unfold Socket.disconnect. destruct (Socket._ws s); now repeat split.
  - match goal with
    | |- context [Socket.notify ?h ?t ?s'] =>
        destruct (notify_keeps h t s') as (-> & -> & _ & _ & ->)
    end. now repeat split.
  - match goal with
    | |- context [Socket.notify ?h ?t ?s'] =>
        destruct (notify_keeps h t s') as (-> & -> & _ & _ & ->)
    end. now repeat split.
  - match goal with
    | |- context [Socket.notify ?h ?t ?s'] =>
        destruct (notify_keeps h t s') as (-> & -> & _ & _ & ->)
    end. now repeat split.
Qed.

Lemma onmessage_registry (onMessage : option handler) (data : value) (s : state)
    (k : string) (h : handler) :
  Socket._callbacks (snd (Socket.onmessage P onMessage data s)) !! k = Some h ->
  Socket._callbacks s !! k = Some h.
Proof.
  unfold Socket.onmessage, Socket.call.
  destruct (Socket.callbackId_of data) as [id|]; [| exact (fun H => H)].
  destruct (truthy id).
  - destruct (Socket._callbacks s !! to_string id) as [g|].
    + destruct (Socket.returns P g data); cbn [snd Socket._callbacks];
        [| exact (fun H => H)].
      intros H. apply lookup_delete_Some in H. tauto.
    + destruct (Socket.inherited (to_string id)); [exact (fun H => H) |].
      destruct onMessage; exact (fun H => H).
  - destruct onMessage; exact (fun H => H).
Qed.

Lemma step_ids_below (s : state) (a : Socket.action handler) :
  ids_below s -> ids_below (snd (Socket.step P s a)).
Proof.
  intros [Hone Hkeys]. unfold ids_below.
  destruct (is_connection a) eqn:Hconn.
  - destruct (step_connection_keeps s a Hconn) as (-> & -> & _). now split.
  - destruct a as [url o1 o2 o3 o4 | | method params callback | i | i | i | i parsed];
      try discriminate Hconn; cbn [Socket.step snd].
    + destruct (sendRequest_registers method params callback s) as (-> & -> & _).
      split; [lia |]. intros k h Hk.
      destruct callback as [g|]; cbn [registered] in Hk.
      * apply lookup_insert_Some in Hk as [[<- _] | [_ Hk]].
        -- exists (Socket._nextCallbackId s). split; [lia | reflexivity].
        -- destruct (Hkeys k h Hk) as (n & Hn & ->). exists n. split; [lia | reflexivity].
      * destruct (Hkeys k h Hk) as (n & Hn & ->). exists n. split; [lia | reflexivity].
    + destruct (Socket.sockets s !! i) as [ws|]; [| now split].
      destruct parsed as [data|]; [| now split].
      rewrite onmessage_counter. split; [exact Hone |].
      intros k h Hk. apply onmessage_registry in Hk. exact (Hkeys k h Hk).
Qed.

Lemma run_ids_below (actions : list (Socket.action handler)) (s : state) :
  ids_below s -> ids_below (Socket.run P s actions).
Proof.
  revert s. induction actions as [|a actions IH]; intros s H; [exact H |].
  cbn [Socket.run]. now apply IH, step_ids_below.
Qed.

(** X15.  After any history of the module since it was loaded, the
    identifier the next [sendRequest] takes is not registered, so a pending
    callback is never overwritten; and no registered identifier is the name
    of a member the registry inherits from [Object.prototype].  (As long as
    the counter is an integer JavaScript counts exactly.) *)
Theorem pending_callbacks_never_overwritten (actions : list (Socket.action handler)) :
  exact (Socket._nextCallbackId (Socket.run P Socket.loaded actions)) ->
  Socket._callbacks (Socket.run P Socket.loaded actions)
    !! fst (Socket._generateCallbackId (Socket.run P Socket.loaded actions)) = None
  /\ forall k, is_Some (Socket._callbacks (Socket.run P Socket.loaded actions) !! k) ->
       Socket.inherited k = false.
Proof.
  intros _.
  assert (ids_below (Socket.run P (@Socket.loaded handler) actions)) as [Hone Hkeys].
  { apply run_ids_below. split; [simpl; lia |].
    intros k h Hk. simpl in Hk. now rewrite lookup_empty in Hk. }
  split.
  - destruct (Socket._callbacks (Socket.run P Socket.loaded actions)
                !! fst (Socket._generateCallbackId (Socket.run P Socket.loaded actions)))
      as [h|] eqn:Hk; [| reflexivity].
    destruct (Hkeys _ _ Hk) as (n & Hn & Heq).
    cbn [Socket._generateCallbackId fst] in Heq.
    apply append_inv_head, decimal_injective in Heq. lia.
  - intros k [h Hk]. destruct (Hkeys _ _ Hk) as (n & _ & ->).
    apply callbackId_not_inherited.
Qed.

(** X16.  With the current socket open, [sendRequest] sends one frame on
    it, the JSON text of [{method, params, callbackId}] under the next
    identifier; it touches no other socket, warns of nothing, and registers
    the callback, if one was given, under that identifier. *)
Theorem sendRequest_on_open_socket (s : state) (i : nat) (ws : Socket.websocket handler)
    (method params : value) (callback : option handler) :
  Socket.has_WebSocket P = true ->
  Socket._ws s = Some i ->
  Socket.sockets s !! i = Some ws ->
  Socket.readyState ws = Socket.OPEN ->
  Socket.sockets (Socket.sendRequest P method params callback s) !! i
  = Some (Socket.send handler
            (request_frame method params (fst (Socket._generateCallbackId s))) ws)
  /\ (forall j, j <> i ->
        Socket.sockets (Socket.sendRequest P method params callback s) !! j
        = Socket.sockets s !! j)
  /\ Socket.warnings (Socket.sendRequest P method params callback s) = Socket.warnings s
  /\ Socket._callbacks (Socket.sendRequest P method params callback s)
     = registered (fst (Socket._generateCallbackId s)) callback (Socket._callbacks s).
Proof.
  intros Hws Hcurrent Hsocket Hopen.
  split; [| split; [| split]];
    [| | | now destruct (sendRequest_registers method params callback s)].
  all: unfold Socket.sendRequest, Socket._sendMessage;
    cbn [Socket._generateCallbackId]; rewrite Hws.
  all: destruct callback as [h|]; cbn [Socket._ws Socket.sockets];
    rewrite Hcurrent, Hsocket, Hopen; cbn [Z.eqb Pos.eqb Socket.OPEN];
    cbn [Socket.with_sockets Socket.sockets Socket.warnings].
  1, 2: apply list_lookup_insert_eq; now apply lookup_lt_Some in Hsocket.
  1, 2: intros j Hj; apply list_lookup_insert_ne; congruence.
  1, 2: reflexivity.
Qed.

(** X17.  Without [WebSocket], without a current socket, or with a current
    socket that is not open, [sendRequest] sends nothing on any socket and
    logs one warning; it throws nothing, and all the same it takes an
    identifier and registers the callback under it. *)
Theorem sendRequest_dropped (s : state) (method params : value)
    (callback : option handler) :
  Socket.has_WebSocket P = false
  \/ Socket._ws s = None
  \/ (exists i ws, Socket._ws s = Some i /\ Socket.sockets s !! i = Some ws
                   /\ Socket.readyState ws <> Socket.OPEN) ->
  Socket.sockets (Socket.sendRequest P method params callback s) = Socket.sockets s
  /\ Socket.warnings (Socket.sendRequest P method params callback s)
     = Socket.warnings s ++ ["WebSocket not connected or unsupported"]
  /\ Socket._callbacks (Socket.sendRequest P method params callback s)
     = registered (fst (Socket._generateCallbackId s)) callback (Socket._callbacks s)
  /\ Socket._nextCallbackId (Socket.sendRequest P method params callback s)
     = (Socket._nextCallbackId s + 1)%Z.
Proof.
  intros Hclosed.
  destruct (sendRequest_registers method params callback s) as (Hreg & Hnext & _).
  split; [| split; [| split; assumption]].
  all: unfold Socket.sendRequest, Socket._sendMessage;
    cbn [Socket._generateCallbackId].
  all: destruct callback as [h|]; cbn [Socket._ws Socket.sockets].
  all: destruct (Socket.has_WebSocket P); [| reflexivity].
  all: destruct Hclosed as [Hw | [-> | (i & ws & -> & -> & Hstate)]];
    [discriminate Hw | reflexivity |].
  all: apply Z.eqb_neq in Hstate; now rewrite Hstate.
Qed.

(** X18.  A reply whose [callbackId] names a registered callback is handed
    to that callback and to nobody else, and the callback is removed when
    it returns: the same reply once more goes to the [onMessage] handler of
    its socket, or to nobody if the socket has none. *)
Theorem reply_reaches_callback_once (s : state) (i : nat)
    (ws : Socket.websocket handler) (data id : value) (h : handler) :
  Socket.sockets s !! i = Some ws ->
  Socket.callbackId_of data = Returned id ->
  truthy id = true ->
  Socket._callbacks s !! to_string id = Some h ->
  Socket.returns P h data = true ->
  Socket.inherited (to_string id) = false ->
  exists s1,
    Socket.step P s (Socket.Message i (Some data)) = (Returned tt, s1)
    /\ Socket.calls s1 = Socket.calls s ++ [(h, data)]
    /\ Socket._callbacks s1 = delete (to_string id) (Socket._callbacks s)
    /\ Socket.calls (snd (Socket.step P s1 (Socket.Message i (Some data))))
       = Socket.calls s1
         ++ match Socket.onMessage ws with Some g => [(g, data)] | None => [] end
    /\ Socket._callbacks (snd (Socket.step P s1 (Socket.Message i (Some data))))
       = Socket._callbacks s1.
Proof.
  intros Hsocket Hid Htruthy Hregistered Hreturns Hown.
  eexists. split.
  { cbn [Socket.step]. rewrite Hsocket. unfold Socket.onmessage, Socket.call.
    rewrite Hid, Htruthy, Hregistered, Hreturns. reflexivity. }
  cbn [Socket.calls Socket._callbacks Socket.step Socket.sockets].
  rewrite Hsocket. unfold Socket.onmessage, Socket.call.
  rewrite Hid, Htruthy. cbn [Socket._callbacks].
  rewrite lookup_delete_eq, Hown.
  destruct (Socket.onMessage ws) as [g|]; cbn [snd Socket.calls Socket._callbacks];
    rewrite ?app_nil_r; repeat split.
Qed.

(** X19.  A callback that throws stays registered: the exception leaves
    the handler before the registry is touched, so the next reply under the
    same identifier calls it again. *)
Theorem throwing_callback_stays_registered (s : state) (i : nat)
    (ws : Socket.websocket handler) (data id : value) (h : handler) :
  Socket.sockets s !! i = Some ws ->
  Socket.callbackId_of data = Returned id ->
  truthy id = true ->
  Socket._callbacks s !! to_string id = Some h ->
  Socket.returns P h data = false ->
  exists message s1,
    Socket.step P s (Socket.Message i (Some data)) = (Thrown message, s1)
    /\ Socket.calls s1 = Socket.calls s ++ [(h, data)]
    /\ Socket._callbacks s1 = Socket._callbacks s
    /\ Socket.calls (snd (Socket.step P s1 (Socket.Message i (Some data))))
       = Socket.calls s ++ [(h, data); (h, data)].
Proof.
  intros Hsocket Hid Htruthy Hregistered Hreturns.
  do 2 eexists. split.
  { cbn [Socket.step]. rewrite Hsocket. unfold Socket.onmessage, Socket.call.
    rewrite Hid, Htruthy, Hregistered, Hreturns. reflexivity. }
  cbn [Socket.calls Socket._callbacks Socket.step Socket.sockets].
  rewrite Hsocket. unfold Socket.onmessage, Socket.call.
  rewrite Hid, Htruthy. cbn [Socket._callbacks].
  rewrite Hregistered, Hreturns. cbn [snd Socket.calls].
  rewrite <- app_assoc. repeat split.
Qed.

Lemma run_connections_keep (actions : list (Socket.action handler)) (s : state) :
  Forall (fun a => is_connection a = true) actions ->
  Socket._callbacks (Socket.run P s actions) = Socket._callbacks s
  /\ Socket._nextCallbackId (Socket.run P s actions) = Socket._nextCallbackId s
  /\ Socket.warnings (Socket.run P s actions) = Socket.warnings s.
Proof.
  revert s. induction actions as [|a actions IH]; intros s H; [now repeat split |].
  inversion H as [|? ? Ha Hrest]; subst. cbn [Socket.run].
  destruct (IH (snd (Socket.step P s a)) Hrest) as (-> & -> & ->).
  now apply step_connection_keeps.
Qed.

(** X20.  Making, opening, failing and closing connections, in any number
    and order, neither clears the registry nor resets the counter (the
    platform calls the [onOpen], [onClose] and [onError] handlers on the
    way): a callback pending when the socket is disconnected is still
    called by a reply under its identifier on a later socket. *)
Theorem connections_keep_pending_callbacks (actions : list (Socket.action handler))
    (s : state) (i : nat) (ws : Socket.websocket handler) (data id : value)
    (h : handler) :
  Forall (fun a => is_connection a = true) actions ->
  Socket._callbacks s !! to_string id = Some h ->
  Socket.sockets (Socket.run P s actions) !! i = Some ws ->
  Socket.callbackId_of data = Returned id ->
  truthy id = true ->
  Socket._callbacks (Socket.run P s actions) = Socket._callbacks s
  /\ Socket._nextCallbackId (Socket.run P s actions) = Socket._nextCallbackId s
  /\ Socket.calls (snd (Socket.step P (Socket.run P s actions)
                          (Socket.Message i (Some data))))
     = Socket.calls (Socket.run P s actions) ++ [(h, data)].
Proof.
  intros Hconn Hregistered Hsocket Hid Htruthy.
  destruct (run_connections_keep actions s Hconn) as (Hcallbacks & Hcounter & _).
  split; [exact Hcallbacks |]. split; [exact Hcounter |].
  cbn [Socket.step]. rewrite Hsocket. unfold Socket.onmessage, Socket.call.
  rewrite Hid, Htruthy, Hcallbacks, Hregistered.
  destruct (Socket.returns P h data); reflexivity.
Qed.

(** X21.  [connect] makes a new socket and leaves every earlier one as it
    was, the one it replaces included, which it does not close.  A request
    sent after [connect] and before the platform has opened the socket is
    dropped with a warning; once the socket is open the request goes out on
    it, and on no earlier socket. *)
Theorem request_after_connect (s : state) (url : string)
    (onOpen onMessage onClose onError : option handler)
    (method params : value) (callback : option handler) :
  Socket.has_WebSocket P = true ->
  Socket.accepts P url = true ->
  let made := Socket.WebSocket handler url Socket.CONNECTING [] onOpen onMessage
                onClose onError in
  let id := fst (Socket._generateCallbackId s) in
  (Socket.sockets
     (Socket.run P s
        [Socket.Connect url onOpen onMessage onClose onError;
         Socket.SendRequest method params callback])
   = Socket.sockets s ++ [made]
   /\ Socket.warnings
        (Socket.run P s
           [Socket.Connect url onOpen onMessage onClose onError;
            Socket.SendRequest method params callback])
      = Socket.warnings s ++ ["WebSocket not connected or unsupported"])
  /\ (Socket.sockets
        (Socket.run P s
           [Socket.Connect url onOpen onMessage onClose onError;
            Socket.Opens (length (Socket.sockets s));
            Socket.SendRequest method params callback])
      = Socket.sockets s
        ++ [Socket.WebSocket handler url Socket.OPEN [request_frame method params id]
              onOpen onMessage onClose onError]
      /\ Socket.warnings
           (Socket.run P s
              [Socket.Connect url onOpen onMessage onClose onError;
               Socket.Opens (length (Socket.sockets s));
               Socket.SendRequest method params callback])
         = Socket.warnings s).
Proof.
  intros Hws Haccepts made id.
  assert (forall l : list (Socket.websocket handler), forall x, (l ++ [x]) !! length l = Some x)
    as Hlast by (intros l x; now rewrite lookup_app_r, Nat.sub_diag by lia).
  assert (forall (f : Socket.websocket handler -> Socket.websocket handler) l x,
             alter f (length l) (l ++ [x]) = l ++ [f x]) as Halter.
  { intros f l x. induction l as [|y l IH]; [reflexivity |]. simpl. now f_equal. }
  assert (forall l (x y : Socket.websocket handler),
             <[length l := y]> (l ++ [x]) = l ++ [y]) as Hinsert.
  { intros l x y. induction l as [|z l IH]; [reflexivity |]. simpl. now f_equal. }
  split.
  - cbn [Socket.run Socket.step snd]. unfold Socket.connect.
    rewrite Hws, Haccepts. cbn [negb snd].
    unfold Socket.sendRequest, Socket._sendMessage.
    cbn [Socket._generateCallbackId Socket._ws Socket.sockets].
    destruct callback as [h|]; cbn [Socket._ws Socket.sockets];
      rewrite Hws; cbv iota beta; rewrite Hlast; split; reflexivity.
  - cbn [Socket.run Socket.step snd]. unfold Socket.connect.
    rewrite Hws, Haccepts. cbn [negb snd].
    unfold Socket.listener. cbn [Socket.with_sockets Socket.sockets].
    rewrite Hlast, Halter.
    cbn [Socket.readyState Socket.onopen Z.eqb Socket.CONNECTING].
    unfold Socket.sendRequest, Socket._sendMessage, Socket.with_sockets.
    destruct onOpen as [g|]; cbn [Socket.notify];
    destruct callback as [h|];
      cbn [Socket._generateCallbackId Socket._ws Socket.sockets Socket._callbacks
           Socket._nextCallbackId Socket.calls Socket.warnings Socket.ws_url
           Socket.readyState Socket.frames Socket.onopen Socket.onMessage
           Socket.onclose Socket.onerror Z.eqb Socket.CONNECTING Socket.OPEN Pos.eqb];
      rewrite Hws; cbv iota beta; rewrite Hlast;
      cbn [Socket.readyState Z.eqb Socket.OPEN Pos.eqb Socket.sockets Socket.warnings];
      rewrite Hinsert; split; reflexivity.
Qed.

(** X22.  Take a reply whose [callbackId] converts to a string (it holds
    no object with an own [toString] property).  If it names no registered
    callback, or none at all, it goes to the [onMessage] handler of its
    socket and leaves the registry as it is; without such a handler nothing
    happens.  But after any history of the module, if it is the name of a
    member of [Object.prototype] the reply reaches no handler at all,
    [onMessage] included: the state stays as it is. *)
Theorem unmatched_replies (actions : list (Socket.action handler)) (i : nat)
    (ws : Socket.websocket handler) (data id : value) :
  let s := Socket.run P Socket.loaded actions in
  Socket.sockets s !! i = Some ws ->
  Socket.callbackId_of data = Returned id ->
  converts id = true ->
  (truthy id = false
   \/ (Socket._callbacks s !! to_string id = None
       /\ Socket.inherited (to_string id) = false) ->
   Socket.calls (snd (Socket.step P s (Socket.Message i (Some data))))
   = Socket.calls s
     ++ match Socket.onMessage ws with Some g => [(g, data)] | None => [] end
   /\ Socket._callbacks (snd (Socket.step P s (Socket.Message i (Some data))))
      = Socket._callbacks s)
  /\ (truthy id = true -> Socket.inherited (to_string id) = true ->
      snd (Socket.step P s (Socket.Message i (Some data))) = s).
Proof.
  intros s Hsocket Hid _. split.
  - intros Hunmatched. cbn [Socket.step]. rewrite Hsocket.
    unfold Socket.onmessage, Socket.call. rewrite Hid.
    destruct Hunmatched as [-> | [Hnone Hown]].
    + destruct (Socket.onMessage ws); cbn [snd Socket.calls Socket._callbacks];
        rewrite ?app_nil_r; now split.
    + rewrite Hnone, Hown.
      destruct (truthy id), (Socket.onMessage ws);
        cbn [snd Socket.calls Socket._callbacks]; rewrite ?app_nil_r; now split.
  - intros Htruthy Hinherited. cbn [Socket.step]. rewrite Hsocket.
    unfold Socket.onmessage. rewrite Hid, Htruthy.
    destruct (Socket._callbacks s !! to_string id) as [h|] eqn:Hregistered.
    + assert (ids_below s) as [_ Hkeys].
      { apply run_ids_below. split; [simpl; lia |].
        intros k g Hk. simpl in Hk. now rewrite lookup_empty in Hk. }
      destruct (Hkeys _ _ Hregistered) as (n & _ & Hkey).
      rewrite Hkey, callbackId_not_inherited in Hinherited. discriminate.
    + now rewrite Hinherited.
Qed.

(** A frame that is not JSON text, or whose JSON value is [null],
    makes the handler throw before any handler is called: the state stays
    as it is, and [onMessage] does not see the frame either. *)
Theorem malformed_frames_throw (s : state) (i : nat) (ws : Socket.websocket handler) :
  Socket.sockets s !! i = Some ws ->
  Socket.step P s (Socket.Message i None) = (Thrown "SyntaxError", s)
  /\ Socket.step P s (Socket.Message i (Some JNull)) = (Thrown "TypeError", s).
Proof.
  intros Hsocket. cbn [Socket.step]. rewrite Hsocket. split; reflexivity.
Qed.

End SocketFacts.

(** ** The properties at a history *)

(** The example history leaves one open socket with the subscription sent
    on it, and its callback pending under [cb1]. *)
Lemma example_history_state (P : Socket.platform string) :
  Socket.has_WebSocket P = true -> Socket.accepts P "ws://x" = true ->
  Socket.sockets (Socket.run P Socket.loaded example_history) = [example_socket]
  /\ Socket._ws (Socket.run P Socket.loaded example_history) = Some 0%nat
  /\ Socket._callbacks (Socket.run P Socket.loaded example_history)
     = <[ "cb1" := "onTicks" ]> ∅
  /\ Socket.calls (Socket.run P Socket.loaded example_history) = [].
Proof.
  intros Hws Haccepts. unfold example_history.
  cbn [Socket.run Socket.step snd]. unfold Socket.connect.
  rewrite Hws, Haccepts. cbn [negb snd].
  unfold Socket.sendRequest, Socket._sendMessage. rewrite Hws.
  repeat split.
Qed.

Lemma callback_ids_never_repeat_witness :
  fst (Socket._generateCallbackId (Socket.run example_platform Socket.loaded example_history))
  <> fst (Socket._generateCallbackId
            (Socket.run example_platform
               (snd (Socket.step example_platform
                       (Socket.run example_platform Socket.loaded example_history)
                       (Socket.SendRequest (JStr "unsubscribe") JNull None)))
               [Socket.Disconnect;
                Socket.Connect "ws://y" None None None None;
                Socket.Message 0 (Some example_reply)])).
Proof.
  apply (callback_ids_never_repeat example_platform). reflexivity.
Defined.

Lemma pending_callbacks_never_overwritten_witness :
  Socket._callbacks (Socket.run example_platform Socket.loaded example_history)
    !! fst (Socket._generateCallbackId
              (Socket.run example_platform Socket.loaded example_history)) = None
  /\ forall k,
       is_Some (Socket._callbacks
                  (Socket.run example_platform Socket.loaded example_history) !! k) ->
       Socket.inherited k = false.
Proof.
  apply (pending_callbacks_never_overwritten example_platform). reflexivity.
Defined.

Lemma sendRequest_on_open_socket_witness :
  Socket.sockets
    (Socket.sendRequest example_platform (JStr "unsubscribe") JNull None
       (Socket.run example_platform Socket.loaded example_history)) !! 0%nat
  = Some (Socket.send string
            (json "{'method':'unsubscribe','params':null,'callbackId':'cb2'}")
            example_socket).
Proof.
  destruct (example_history_state example_platform eq_refl eq_refl)
    as (Hsockets & Hcurrent & _).
  assert (Socket.sockets (Socket.run example_platform Socket.loaded example_history)
            !! 0%nat = Some example_socket) as Hsocket by now rewrite Hsockets.
  exact (proj1 (sendRequest_on_open_socket example_platform
                  (Socket.run example_platform Socket.loaded example_history)
                  0 example_socket (JStr "unsubscribe") JNull None
                  eq_refl Hcurrent Hsocket eq_refl)).
Defined.

Lemma sendRequest_dropped_witness :
  Socket.sockets
    (Socket.sendRequest example_platform (JStr "subscribe") JNull (Some "onTicks")
       Socket.loaded) = []
  /\ Socket.warnings
       (Socket.sendRequest example_platform (JStr "subscribe") JNull (Some "onTicks")
          Socket.loaded)
     = ["WebSocket not connected or unsupported"]
  /\ Socket._callbacks
       (Socket.sendRequest example_platform (JStr "subscribe") JNull (Some "onTicks")
          Socket.loaded)
     = <[ "cb1" := "onTicks" ]> ∅
  /\ Socket._nextCallbackId
       (Socket.sendRequest example_platform (JStr "subscribe") JNull (Some "onTicks")
          Socket.loaded) = 2%Z.
Proof.
  apply (sendRequest_dropped example_platform Socket.loaded).
  right. left. reflexivity.
Defined.

Lemma reply_reaches_callback_once_witness :
  exists s1,
    Socket.step example_platform
      (Socket.run example_platform Socket.loaded example_history)
      (Socket.Message 0 (Some example_reply)) = (Returned tt, s1)
    /\ Socket.calls s1 = [("onTicks", example_reply)]
    /\ Socket.calls
         (snd (Socket.step example_platform s1 (Socket.Message 0 (Some example_reply))))
       = [("onTicks", example_reply); ("onMessage", example_reply)].
Proof.
  destruct (example_history_state example_platform eq_refl eq_refl)
    as (Hsockets & _ & Hcallbacks & Hcalls).
  assert (Socket.sockets (Socket.run example_platform Socket.loaded example_history)
            !! 0%nat = Some example_socket) as Hsocket by now rewrite Hsockets.
  assert (Socket._callbacks (Socket.run example_platform Socket.loaded example_history)
            !! to_string (JStr "cb1") = Some "onTicks") as Hregistered
    by (rewrite Hcallbacks; apply lookup_insert_eq).
  destruct (reply_reaches_callback_once example_platform
              (Socket.run example_platform Socket.loaded example_history)
              0 example_socket example_reply (JStr "cb1") "onTicks"
              Hsocket eq_refl eq_refl Hregistered eq_refl eq_refl)
    as (s1 & Hstep & Hcalled & _ & Hagain & _).
  exists s1. split; [exact Hstep |].
  rewrite Hcalls in Hcalled. split; [exact Hcalled |].
  rewrite Hagain, Hcalled. reflexivity.
Defined.

Lemma throwing_callback_stays_registered_witness :
  exists message s1,
    Socket.step throwing_platform
      (Socket.run throwing_platform Socket.loaded example_history)
      (Socket.Message 0 (Some example_reply)) = (Thrown message, s1)
    /\ Socket._callbacks s1 !! "cb1" = Some "onTicks"
    /\ Socket.calls
         (snd (Socket.step throwing_platform s1 (Socket.Message 0 (Some example_reply))))
       = [("onTicks", example_reply); ("onTicks", example_reply)].
Proof.
  destruct (example_history_state throwing_platform eq_refl eq_refl)
    as (Hsockets & _ & Hcallbacks & Hcalls).
  assert (Socket.sockets (Socket.run throwing_platform Socket.loaded example_history)
            !! 0%nat = Some example_socket) as Hsocket by now rewrite Hsockets.
  assert (Socket._callbacks (Socket.run throwing_platform Socket.loaded example_history)
            !! to_string (JStr "cb1") = Some "onTicks") as Hregistered
    by (rewrite Hcallbacks; apply lookup_insert_eq).
  destruct (throwing_callback_stays_registered throwing_platform
              (Socket.run throwing_platform Socket.loaded example_history)
              0 example_socket example_reply (JStr "cb1") "onTicks"
              Hsocket eq_refl eq_refl Hregistered eq_refl)
    as (message & s1 & Hstep & _ & Hkept & Hagain).
  exists message, s1. split; [exact Hstep |]. split.
  - rewrite Hkept, Hcallbacks. apply lookup_insert_eq.
  - rewrite Hagain, Hcalls. reflexivity.
Defined.

Lemma connections_keep_pending_callbacks_witness :
  Socket._callbacks
    (Socket.run example_platform
       (Socket.run example_platform Socket.loaded example_history)
       [Socket.Disconnect; Socket.Connect "ws://y" None None None None; Socket.Opens 1])
  = Socket._callbacks (Socket.run example_platform Socket.loaded example_history)
  /\ Socket.calls
       (snd (Socket.step example_platform
               (Socket.run example_platform
                  (Socket.run example_platform Socket.loaded example_history)
                  [Socket.Disconnect; Socket.Connect "ws://y" None None None None;
                   Socket.Opens 1])
               (Socket.Message 1 (Some example_reply))))
     = [("onTicks", example_reply)].
Proof.
  destruct (example_history_state example_platform eq_refl eq_refl)
    as (Hsockets & Hcurrent & Hcallbacks & Hcalls).
  assert (Forall (fun a : Socket.action string => is_connection a = true)
            [Socket.Disconnect; Socket.Connect "ws://y" None None None None;
             Socket.Opens 1]) as Hconn by (repeat constructor).
  assert (Socket._callbacks (Socket.run example_platform Socket.loaded example_history)
            !! to_string (JStr "cb1") = Some "onTicks") as Hregistered
    by (rewrite Hcallbacks; apply lookup_insert_eq).
  assert (Socket.sockets
            (Socket.run example_platform
               (Socket.run example_platform Socket.loaded example_history)
               [Socket.Disconnect; Socket.Connect "ws://y" None None None None;
                Socket.Opens 1]) !! 1%nat
          = Some (Socket.WebSocket string "ws://y" Socket.OPEN [] None None None None))
    as Hsocket.
  { cbn [Socket.run Socket.step snd]. unfold Socket.disconnect.
    rewrite Hcurrent, Hsockets. reflexivity. }
  assert (Socket.calls
            (Socket.run example_platform
               (Socket.run example_platform Socket.loaded example_history)
               [Socket.Disconnect; Socket.Connect "ws://y" None None None None;
                Socket.Opens 1]) = []) as Hquiet.
  { cbn [Socket.run Socket.step snd]. unfold Socket.disconnect, Socket.listener.
    rewrite Hcurrent, Hsockets, Hcalls. reflexivity. }
  destruct (connections_keep_pending_callbacks example_platform _ _ _ _
              example_reply (JStr "cb1") "onTicks"
              Hconn Hregistered Hsocket eq_refl eq_refl)
    as (Hkept & _ & Hcalled).
  split; [exact Hkept |]. rewrite Hcalled, Hquiet. reflexivity.
Defined.

Lemma request_after_connect_witness :
  Socket.sockets
    (Socket.run example_platform Socket.loaded
       [Socket.Connect "ws://x" None (Some "onMessage") None None;
        Socket.SendRequest (JStr "subscribe") (JObj []) (Some "onTicks")])
  = [Socket.WebSocket string "ws://x" Socket.CONNECTING [] None (Some "onMessage")
       None None]
  /\ Socket.sockets (Socket.run example_platform Socket.loaded example_history)
     = [example_socket].
Proof.
  destruct (request_after_connect example_platform Socket.loaded "ws://x"
              None (Some "onMessage") None None (JStr "subscribe") (JObj [])
              (Some "onTicks") eq_refl eq_refl) as [[Hdropped _] [Hsent _]].
  split; [exact Hdropped | exact Hsent].
Defined.

Lemma unmatched_replies_witness :
  snd (Socket.step example_platform
         (Socket.run example_platform Socket.loaded example_history)
         (Socket.Message 0 (Some (JObj [("callbackId", JStr "toString")]))))
  = Socket.run example_platform Socket.loaded example_history
  /\ Socket.calls
       (snd (Socket.step example_platform
               (Socket.run example_platform Socket.loaded example_history)
               (Socket.Message 0 (Some (JObj [("event", JStr "tick")])))))
     = [("onMessage", JObj [("event", JStr "tick")])].
Proof.
  destruct (example_history_state example_platform eq_refl eq_refl)
    as (Hsockets & _ & _ & Hcalls).
  assert (Socket.sockets (Socket.run example_platform Socket.loaded example_history)
            !! 0%nat = Some example_socket) as Hsocket by now rewrite Hsockets.
  split.
  - exact (proj2 (unmatched_replies example_platform example_history 0 example_socket
                    (JObj [("callbackId", JStr "toString")]) (JStr "toString")
                    Hsocket eq_refl eq_refl) eq_refl eq_refl).
  - destruct (proj1 (unmatched_replies example_platform example_history 0 example_socket
                       (JObj [("event", JStr "tick")]) JUndefined Hsocket eq_refl
                       eq_refl)
                (or_introl eq_refl)) as [Hcalled _].
    rewrite Hcalled, Hcalls. reflexivity.
Defined.

Lemma malformed_frames_throw_witness :
  Socket.step example_platform
    (Socket.run example_platform Socket.loaded example_history)
    (Socket.Message 0 None)
  = (Thrown "SyntaxError", Socket.run example_platform Socket.loaded example_history)
  /\ Socket.step example_platform
       (Socket.run example_platform Socket.loaded example_history)
       (Socket.Message 0 (Some JNull))
     = (Thrown "TypeError", Socket.run example_platform Socket.loaded example_history).
Proof.
  destruct (example_history_state example_platform eq_refl eq_refl) as (Hsockets & _).
  assert (Socket.sockets (Socket.run example_platform Socket.loaded example_history)
            !! 0%nat = Some example_socket) as Hsocket by now rewrite Hsockets.
  exact (malformed_frames_throw example_platform _ 0 example_socket Hsocket).
Defined.
